(** * Host telemetry collector (app.py): rate engine, snapshot store, aggregator

    A shallow embedding of [src/app.py].  Python floats are modelled by exact
    rationals ([Q]); equality of computed rates is therefore [Qeq] ([==]),
    which is what "within floating-point tolerance" abstracts.  Python
    integers are [Z].  Exceptions are explicit: fallible code lives in the
    [result] monad, and [try ... except Exception] is [try_except]. *)

From Stdlib Require Import QArith Qminmax Qround Lqa Lia ZArith.
From stdpp Require Import gmap strings list fin_maps sorting.

Local Open Scope Q_scope.

(** ** Python values and the operations [_calc_speed] performs on them *)

Inductive value :=
  | VNone
  | VInt (z : Z)
  | VFloat (q : Q)
  | VStr (s : string).

(** [OtherError] stands for whatever a failing library call raises. *)
Inductive exn := TypeError | ZeroDivisionError | OtherError.

Inductive result (A : Type) :=
  | Ok (a : A)
  | Raise (e : exn).
Arguments Ok {A} a.
Arguments Raise {A} e.

(** Sequencing: the first exception raised propagates. *)
Definition bind {A B} (m : result A) (k : A -> result B) : result B :=
  match m with
  | Ok a => k a
  | Raise e => Raise e
  end.

Notation "'let*' x ':=' m 'in' k" := (bind m (fun x => k))
  (at level 10, x name, m at level 100, k at level 200).

(** [try: body except Exception: handler] *)
Definition try_except {A} (body handler : result A) : result A :=
  match body with
  | Ok a => Ok a
  | Raise _ => handler
  end.

(** The numeric reading of a value, when it is an [int] or a [float]. *)
Definition num_of (v : value) : option Q :=
  match v with
  | VInt z => Some (inject_Z z)
  | VFloat q => Some q
  | _ => None
  end.

Definition Qnonzero (q : Q) : bool := negb (Qeq_bool q 0).

(** Python truthiness: [None], [0], [0.0] and the empty string are falsy. *)
Definition truthy (v : value) : bool :=
  match v with
  | VNone => false
  | VInt z => negb (z =? 0)%Z
  | VFloat q => Qnonzero q
  | VStr s => negb (String.eqb s "")
  end.

(** [a or b] *)
Definition py_or (a b : value) : value := if truthy a then a else b.

(** [a - b]: defined on numbers only. *)
Definition py_sub (a b : value) : result value :=
  match a, b with
  | VInt x, VInt y => Ok (VInt (x - y))
  | VInt x, VFloat y => Ok (VFloat (inject_Z x - y))
  | VFloat x, VInt y => Ok (VFloat (x - inject_Z y))
  | VFloat x, VFloat y => Ok (VFloat (x - y))
  | _, _ => Raise TypeError
  end.

(** [a / b]: true division, always a float; a zero divisor raises. *)
Definition py_truediv (a b : value) : result value :=
  match num_of a, num_of b with
  | Some x, Some y =>
      if Qeq_bool y 0 then Raise ZeroDivisionError else Ok (VFloat (x / y))
  | _, _ => Raise TypeError
  end.

(** [a > b]: numbers compare by value, strings lexicographically, anything
    else is a [TypeError]. *)
Definition py_gt (a b : value) : result bool :=
  match a, b with
  | VStr s, VStr t => Ok (String.ltb t s)
  | _, _ =>
      match num_of a, num_of b with
      | Some x, Some y => Ok (negb (Qle_bool x y))
      | _, _ => Raise TypeError
      end
  end.

(** [max(a, b)]: the builtin keeps the first argument unless the second is
    strictly greater. *)
Definition py_max (a b : value) : result value :=
  let* g := py_gt b a in Ok (if g then b else a).

(** The floor [1e-6] of line 120. *)
Definition eps : Q := 1 # 1000000.

(** Line 120: [dt = max(now - (prev or now), 1e-6)]. *)
Definition calc_dt (now prev : value) : result value :=
  let* d := py_sub now (py_or prev now) in
  py_max d (VFloat eps).

(** Lines 121-124: the guarded division. *)
Definition rate_over (dt now_val prev_val : value) : result value :=
  try_except
    (let* n := py_sub now_val (py_or prev_val now_val) in py_truediv n dt)
    (Ok (VFloat 0)).

(** [_calc_speed] (lines 119-124).  The [dt] line is outside the [try]. *)
Definition _calc_speed (now prev now_val prev_val : value) : result value :=
  let* dt := calc_dt now prev in
  rate_over dt now_val prev_val.

(** ** Counter source, snapshot store and rate results *)

(** A call made inside a [try] block either returns or fails. *)
Inductive outcome (A : Type) :=
  | Returned (a : A)
  | Failed.
Arguments Returned {A} a.
Arguments Failed {A}.

(** psutil's network counters.  The byte counters are read as attributes;
    the packet counters through [getattr(c, name, None)], so they are
    optional here. *)
Record snetio := {
  bytes_sent : Z;
  bytes_recv : Z;
  packets_sent : option Z;
  packets_recv : option Z
}.

(** psutil's disk counters, with the same convention for the counts. *)
Record sdiskio := {
  read_bytes : Z;
  write_bytes : Z;
  read_count : option Z;
  write_count : option Z
}.

(** What one poll obtains from the clock and from psutil (lines 128-140). *)
Record reading := {
  clock : Q;
  read_net : outcome (option snetio);
  read_pernic : outcome (gmap string snetio);
  read_disk : outcome (option sdiskio)
}.

(** [_prev_snapshot] (lines 18-23). *)
Record snapshot := {
  time : option Q;
  net : option snetio;
  net_pernic : option (gmap string snetio);
  disk_io : option sdiskio
}.

Definition _prev_snapshot : snapshot :=
  {| time := None; net := None; net_pernic := None; disk_io := None |}.

Record net_speeds := {
  bytes_sent_per_sec : value;
  bytes_recv_per_sec : value
}.

Record nic_speeds := {
  nic_bytes_sent_per_sec : value;
  nic_bytes_recv_per_sec : value;
  nic_packets_sent : option Z;
  nic_packets_recv : option Z
}.

Record disk_speeds := {
  read_bytes_per_sec : value;
  write_bytes_per_sec : value;
  io_read_count : option Z;
  io_write_count : option Z
}.

Record speeds := {
  sp_net : net_speeds;
  sp_per_nic : gmap string nic_speeds;
  sp_disk_io : disk_speeds
}.

(** Lines 130-135: one [try] around both network reads. *)
Definition cur_net (r : reading) : option snetio :=
  match read_net r, read_pernic r with
  | Returned n, Returned _ => n
  | _, _ => None
  end.

Definition cur_pernic (r : reading) : gmap string snetio :=
  match read_net r, read_pernic r with
  | Returned _, Returned m => m
  | _, _ => ∅
  end.

(** Lines 137-140. *)
Definition cur_disk (r : reading) : option sdiskio :=
  match read_disk r with
  | Returned d => d
  | Failed => None
  end.

(** Truthiness of a dict: non-empty. *)
Definition dict_truthy {A} (m : gmap string A) : bool :=
  negb (bool_decide (m = ∅)).

Definition zero_net : net_speeds :=
  {| bytes_sent_per_sec := VFloat 0; bytes_recv_per_sec := VFloat 0 |}.

(** Lines 158-164. *)
Definition net_part (now : Q) (prev_time : option Q) (prev_net cur : option snetio)
  : result net_speeds :=
  match cur with
  | Some n =>
      match prev_time, prev_net with
      | Some pt, Some pn =>
          if Qnonzero pt then
            let* s := _calc_speed (VFloat now) (VFloat pt)
                        (VInt (bytes_sent n)) (VInt (bytes_sent pn)) in
            let* r := _calc_speed (VFloat now) (VFloat pt)
                        (VInt (bytes_recv n)) (VInt (bytes_recv pn)) in
            Ok {| bytes_sent_per_sec := s; bytes_recv_per_sec := r |}
          else Ok zero_net
      | _, _ => Ok zero_net
      end
  | None => Ok zero_net
  end.

(** Line 168: [prev_net_pernic.get(nic) if prev_net_pernic else None]. *)
Definition prev_counters (prev_net_pernic : option (gmap string snetio))
    (nic : string) : option snetio :=
  match prev_net_pernic with
  | Some m => if dict_truthy m then m !! nic else None
  | None => None
  end.

(** Lines 168-180: the body of the per-interface loop. *)
Definition nic_entry (now : Q) (prev_time : option Q)
    (prev_net_pernic : option (gmap string snetio))
    (nic : string) (counters : snetio) : result nic_speeds :=
  let prev_c := prev_counters prev_net_pernic nic in
  let* rates :=
    match prev_time, prev_c with
    | Some pt, Some pc =>
        if Qnonzero pt then
          let* sent_s := _calc_speed (VFloat now) (VFloat pt)
                           (VInt (bytes_sent counters)) (VInt (bytes_sent pc)) in
          let* recv_s := _calc_speed (VFloat now) (VFloat pt)
                           (VInt (bytes_recv counters)) (VInt (bytes_recv pc)) in
          Ok (sent_s, recv_s)
        else Ok (VFloat 0, VFloat 0)
    | _, _ => Ok (VFloat 0, VFloat 0)
    end in
  Ok {| nic_bytes_sent_per_sec := fst rates;
        nic_bytes_recv_per_sec := snd rates;
        nic_packets_sent := packets_sent counters;
        nic_packets_recv := packets_recv counters |}.

(** Lines 166-180: the loop assigns [speeds["per_nic"][nic]] for every item
    of the current dict. *)
Definition pernic_part (now : Q) (prev_time : option Q)
    (prev_net_pernic : option (gmap string snetio))
    (cur : gmap string snetio) : result (gmap string nic_speeds) :=
  if dict_truthy cur then
    map_fold (fun nic counters acc =>
                let* d := acc in
                let* e := nic_entry now prev_time prev_net_pernic nic counters in
                Ok (<[nic := e]> d))
             (Ok ∅) cur
  else Ok ∅.

Definition zero_disk : disk_speeds :=
  {| read_bytes_per_sec := VFloat 0; write_bytes_per_sec := VFloat 0;
     io_read_count := None; io_write_count := None |}.

(** Lines 182-190. *)
Definition disk_part (now : Q) (prev_time : option Q)
    (prev_disk_io cur : option sdiskio) : result disk_speeds :=
  match cur with
  | Some d =>
      let* rates :=
        match prev_time, prev_disk_io with
        | Some pt, Some pd =>
            if Qnonzero pt then
              let* r := _calc_speed (VFloat now) (VFloat pt)
                          (VInt (read_bytes d)) (VInt (read_bytes pd)) in
              let* w := _calc_speed (VFloat now) (VFloat pt)
                          (VInt (write_bytes d)) (VInt (write_bytes pd)) in
              Ok (r, w)
            else Ok (VFloat 0, VFloat 0)
        | _, _ => Ok (VFloat 0, VFloat 0)
        end in
      Ok {| read_bytes_per_sec := fst rates;
            write_bytes_per_sec := snd rates;
            io_read_count := read_count d;
            io_write_count := write_count d |}
  | None => Ok zero_disk
  end.

(** The sample a poll stores (lines 192-195). *)
Definition stored (r : reading) : snapshot :=
  {| time := Some (clock r);
     net := cur_net r;
     net_pernic := Some (cur_pernic r);
     disk_io := cur_disk r |}.

(** [get_io_and_net_speeds] (lines 126-197), with the global store passed
    in and out. *)
Definition get_io_and_net_speeds (prev : snapshot) (r : reading)
  : result (speeds * snapshot) :=
  let now := clock r in
  let prev_time := time prev in
  let prev_net := net prev in
  let prev_net_pernic := net_pernic prev in
  let prev_disk_io := disk_io prev in
  let* n := net_part now prev_time prev_net (cur_net r) in
  let* p := pernic_part now prev_time prev_net_pernic (cur_pernic r) in
  let* d := disk_part now prev_time prev_disk_io (cur_disk r) in
  Ok ({| sp_net := n; sp_per_nic := p; sp_disk_io := d |}, stored r).

(** ** Sample readings used in the concrete runs *)

Definition mk_nic (s r : Z) : snetio :=
  {| bytes_sent := s; bytes_recv := r; packets_sent := Some 1%Z; packets_recv := Some 2%Z |}.

Definition sample_a : reading :=
  {| clock := 10;
     read_net := Returned (Some (mk_nic 1000 2000));
     read_pernic := Returned {[ "eth0" := mk_nic 100 200 ]};
     read_disk := Returned (Some {| read_bytes := 50; write_bytes := 60;
                                    read_count := Some 5%Z; write_count := None |}) |}.

Definition sample_b : reading :=
  {| clock := 11;
     read_net := Returned (Some (mk_nic 1500 2600));
     read_pernic := Returned (<[ "eth1" := mk_nic 50 0 ]> {[ "eth0" := mk_nic 300 200 ]});
     read_disk := Returned (Some {| read_bytes := 80; write_bytes := 60;
                                    read_count := Some 6%Z; write_count := None |}) |}.

Definition rate_of (x : result (speeds * snapshot)) (f : speeds -> option value)
  : option value :=
  match x with
  | Ok (sp, _) => f sp
  | Raise _ => None
  end.

(** A store whose timestamp is the float [0.0], and a poll one second
    later. *)
Definition epoch_store : snapshot :=
  {| time := Some 0; net := Some (mk_nic 1000 0);
     net_pernic := Some ∅; disk_io := None |}.

Definition one_second : reading :=
  {| clock := 1;
     read_net := Returned (Some (mk_nic 1500 0));
     read_pernic := Returned ∅;
     read_disk := Returned None |}.

(** ** Counters tracked by the rate engine *)

Inductive counter :=
  | NetSent
  | NetRecv
  | NicSent (nic : string)
  | NicRecv (nic : string)
  | DiskRead
  | DiskWrite.

(** The value of a counter in a sample, when the sample has it. *)
Definition counter_value (c : counter) (n : option snetio)
    (m : gmap string snetio) (d : option sdiskio) : option Z :=
  match c with
  | NetSent => bytes_sent <$> n
  | NetRecv => bytes_recv <$> n
  | NicSent nic => bytes_sent <$> m !! nic
  | NicRecv nic => bytes_recv <$> m !! nic
  | DiskRead => read_bytes <$> d
  | DiskWrite => write_bytes <$> d
  end.

(** What a poll read for a counter: [None] when the read failed or the
    source has no such counter. *)
Definition read_counter (c : counter) (r : reading) : option Z :=
  counter_value c (cur_net r) (cur_pernic r) (cur_disk r).

(** What the store holds for a counter. *)
Definition prev_counter (c : counter) (s : snapshot) : option Z :=
  counter_value c (net s) (default ∅ (net_pernic s)) (disk_io s).

(** The rate a result reports for a counter: [None] when the result has no
    entry for it (an interface that is not in [per_nic]). *)
Definition reported_rate (c : counter) (sp : speeds) : option value :=
  match c with
  | NetSent => Some (bytes_sent_per_sec (sp_net sp))
  | NetRecv => Some (bytes_recv_per_sec (sp_net sp))
  | NicSent nic => nic_bytes_sent_per_sec <$> sp_per_nic sp !! nic
  | NicRecv nic => nic_bytes_recv_per_sec <$> sp_per_nic sp !! nic
  | DiskRead => Some (read_bytes_per_sec (sp_disk_io sp))
  | DiskWrite => Some (write_bytes_per_sec (sp_disk_io sp))
  end.

(** The typed view of the timestamp arguments of [_calc_speed]. *)
Definition time_value (t : option Q) : value :=
  match t with
  | Some q => VFloat q
  | None => VNone
  end.

(** [prev_val or now_val] on integers. *)
Definition or_int (prev_val now_val : Z) : Z :=
  if (prev_val =? 0)%Z then now_val else prev_val.

(** The value of a computation that did not raise. *)
Definition to_option {A} (x : result A) : option A :=
  match x with
  | Ok a => Some a
  | Raise _ => None
  end.

(** Two polls one float step apart at a present-day epoch time: the
    spacing of doubles near [1.7e9] is [2^-22] seconds. *)
Definition tick_1 : reading :=
  {| clock := 1700000000;
     read_net := Returned (Some (mk_nic 1000 2000));
     read_pernic := Returned {[ "eth0" := mk_nic 100 200 ]};
     read_disk := Returned None |}.

Definition tick_2 : reading :=
  {| clock := 1700000000 + (1 # 4194304);
     read_net := Returned (Some (mk_nic 1500 2600));
     read_pernic := Returned {[ "eth0" := mk_nic 300 200 ]};
     read_disk := Returned None |}.

(** An interface that had sent nothing at the first poll. *)
Definition idle_1 : reading :=
  {| clock := 10;
     read_net := Returned (Some (mk_nic 0 0));
     read_pernic := Returned {[ "eth0" := mk_nic 0 0 ]};
     read_disk := Returned None |}.

Definition idle_2 : reading :=
  {| clock := 11;
     read_net := Returned (Some (mk_nic 500 0));
     read_pernic := Returned {[ "eth0" := mk_nic 500 0 ]};
     read_disk := Returned None |}.

(** A poll whose network read raised, and the poll after it. *)
Definition outage : reading :=
  {| clock := 11;
     read_net := Failed;
     read_pernic := Failed;
     read_disk := Returned None |}.

Definition recovered : reading :=
  {| clock := 12;
     read_net := Returned (Some (mk_nic 2000 3000));
     read_pernic := Returned {[ "eth0" := mk_nic 400 200 ]};
     read_disk := Returned None |}.

Definition steady : reading :=
  {| clock := 13;
     read_net := Returned (Some (mk_nic 2600 3000));
     read_pernic := Returned {[ "eth0" := mk_nic 450 200 ]};
     read_disk := Returned None |}.

(** ** Concurrent pollers

    The module has no lock.  A request thread running
    [get_io_and_net_speeds] touches the global dict eight times: four
    subscript loads (lines 142-145) and four subscript stores (lines
    192-195).  Another thread can be scheduled between any two of them, so
    each access is one atomic step here and a schedule picks which poller
    moves next. *)

Inductive pc :=
  | LoadTime | LoadNet | LoadPernic | LoadDisk
  | StoreTime | StoreNet | StorePernic | StoreDisk
  | Finished.

(** A poller: the sample it took (lines 128-140), its program point, and
    the locals [prev_time], [prev_net], [prev_net_pernic], [prev_disk_io]. *)
Record poller := {
  sample : reading;
  at_pc : pc;
  seen_time : option Q;
  seen_net : option snetio;
  seen_pernic : option (gmap string snetio);
  seen_disk : option sdiskio
}.

Definition start (r : reading) : poller :=
  {| sample := r; at_pc := LoadTime;
     seen_time := None; seen_net := None; seen_pernic := None; seen_disk := None |}.

(** The previous sample as the poller saw it. *)
Definition observed (p : poller) : snapshot :=
  {| time := seen_time p; net := seen_net p;
     net_pernic := seen_pernic p; disk_io := seen_disk p |}.

(** What the poller returns: lines 147-190 on its locals. *)
Definition poller_result (p : poller) : result speeds :=
  let* x := get_io_and_net_speeds (observed p) (sample p) in Ok (fst x).

Definition at_ (p : poller) (l : pc) : poller :=
  {| sample := sample p; at_pc := l;
     seen_time := seen_time p; seen_net := seen_net p;
     seen_pernic := seen_pernic p; seen_disk := seen_disk p |}.

(** One access to the global dict. *)
Definition step (g : snapshot) (p : poller) : snapshot * poller :=
  match at_pc p with
  | LoadTime =>
      (g, {| sample := sample p; at_pc := LoadNet;
             seen_time := time g; seen_net := seen_net p;
             seen_pernic := seen_pernic p; seen_disk := seen_disk p |})
  | LoadNet =>
      (g, {| sample := sample p; at_pc := LoadPernic;
             seen_time := seen_time p; seen_net := net g;
             seen_pernic := seen_pernic p; seen_disk := seen_disk p |})
  | LoadPernic =>
      (g, {| sample := sample p; at_pc := LoadDisk;
             seen_time := seen_time p; seen_net := seen_net p;
             seen_pernic := net_pernic g; seen_disk := seen_disk p |})
  | LoadDisk =>
      (g, {| sample := sample p; at_pc := StoreTime;
             seen_time := seen_time p; seen_net := seen_net p;
             seen_pernic := seen_pernic p; seen_disk := disk_io g |})
  | StoreTime =>
      ({| time := Some (clock (sample p)); net := net g;
          net_pernic := net_pernic g; disk_io := disk_io g |},
       at_ p StoreNet)
  | StoreNet =>
      ({| time := time g; net := cur_net (sample p);
          net_pernic := net_pernic g; disk_io := disk_io g |},
       at_ p StorePernic)
  | StorePernic =>
      ({| time := time g; net := net g;
          net_pernic := Some (cur_pernic (sample p)); disk_io := disk_io g |},
       at_ p StoreDisk)
  | StoreDisk =>
      ({| time := time g; net := net g;
          net_pernic := net_pernic g; disk_io := cur_disk (sample p) |},
       at_ p Finished)
  | Finished => (g, p)
  end.

(** The scheduler lets poller [i] make one step. *)
Definition sched_step (st : snapshot * list poller) (i : nat)
  : snapshot * list poller :=
  match snd st !! i with
  | Some p => let gp := step (fst st) p in (fst gp, <[i := snd gp]> (snd st))
  | None => st
  end.

Definition run (sched : list nat) (st : snapshot * list poller)
  : snapshot * list poller :=
  foldl sched_step st sched.

(** Poller [i] runs from its first load to its last store undisturbed. *)
Definition solo (i : nat) : list nat := replicate 8 i.

(** Pollers [n], [n+1], ..., [n+k-1] one after the other. *)
Fixpoint serial_from (n k : nat) : list nat :=
  match k with
  | O => []
  | S k' => solo n ++ serial_from (S n) k'
  end.

(** The store after a serial run over the given readings. *)
Definition store_after (g : snapshot) (rs : list reading) : snapshot :=
  foldl (fun _ r => stored r) g rs.

(** A finished poller that saw the store [g]. *)
Definition finished (g : snapshot) (r : reading) : poller :=
  {| sample := r; at_pc := Finished;
     seen_time := time g; seen_net := net g;
     seen_pernic := net_pernic g; seen_disk := disk_io g |}.

Fixpoint serial_pollers (g : snapshot) (rs : list reading) : list poller :=
  match rs with
  | [] => []
  | r :: rs' => finished g r :: serial_pollers (stored r) rs'
  end.

(** An interleaving of two pollers over the store left by [sample_a]: the
    first does its four loads and stores only the timestamp, then the second
    does its four loads. *)
Definition torn_schedule : list nat := [0; 0; 0; 0; 0; 1; 1; 1; 1]%nat.

Definition torn_run : snapshot * list poller :=
  run torn_schedule (stored sample_a, [start recovered; start steady]).

(** ** The aggregator: CPU sampling with its fallback (lines 227-239) *)

(** [random]: a stream of raw draws.  [randint(lo, hi)] maps the next draw
    into [lo..hi] and advances the stream.  This stands for any generator
    whose results lie in [lo..hi]: how [random.randint] turns raw bits into
    a result, and how many it consumes, is not modelled, so only the range of
    the results is meaningful. *)
Definition rng := nat -> Z.

Definition randint (lo hi : Z) (g : rng) : Z * rng :=
  ((lo + g O mod (hi - lo + 1))%Z, fun n => g (S n)).

(** [[random.randint(lo, hi) for _ in range(n)]] *)
Fixpoint randints (n : nat) (lo hi : Z) (g : rng) : list Z * rng :=
  match n with
  | O => ([], g)
  | S n' =>
      let d := randint lo hi g in
      let rest := randints n' lo hi (snd d) in
      (fst d :: fst rest, snd rest)
  end.

Definition as_Q (v : value) : Q := default 0 (num_of v).

Definition py_sum (l : list value) : Q := foldr (fun v acc => as_Q v + acc) 0 l.

(** [sum(l) / len(l)] *)
Definition mean (l : list value) : result Q :=
  match l with
  | [] => Raise ZeroDivisionError
  | _ => Ok (py_sum l / inject_Z (Z.of_nat (length l)))
  end.

(** Rounding to the nearest integer, ties to even. *)
Definition round_half_even (q : Q) : Z :=
  let f := Qfloor q in
  let r := q - inject_Z f in
  if Qle_bool r (1 # 2) then
    if Qeq_bool r (1 # 2) then (if Z.even f then f else f + 1)%Z else f
  else (f + 1)%Z.

(** [round(q, 1)], on the exact rational.  Python rounds the double nearest
    to [q]; away from decimal ties the two agree, and at a tie such as
    [127/20] they can differ by one tenth (the double lies just below the
    tie).  Both are a one-decimal value within [1/20] of [q], which is all
    that is stated about the rounded value. *)
Definition round1 (q : Q) : Q := inject_Z (round_half_even (q * 10)) / 10.

(** [psutil.cpu_count(logical=True) or 1] *)
Definition count_or_1 (count : option nat) : nat :=
  match count with
  | Some (S n) => S n
  | _ => 1%nat
  end.

(** Lines 233-235 and 237-239: the synthetic reading. *)
Definition cpu_fallback (count : option nat) (g : rng)
  : result (list value * Q * rng) :=
  let cpu_count := count_or_1 count in
  let zs := randints cpu_count 6 10 g in
  let cpu_percpu := VInt <$> fst zs in
  let* m := mean cpu_percpu in
  Ok (cpu_percpu, round1 m, snd zs).

(** [any(p > 0 for p in l)] *)
Definition any_positive (l : list Q) : bool :=
  existsb (fun p => negb (Qle_bool p 0)) l.

(** Lines 228-239.  [cpu_percent] is the outcome of the blocking
    [psutil.cpu_percent(interval=0.5, percpu=True)]. *)
Definition sample_cpu (cpu_percent : outcome (list Q)) (count : option nat) (g : rng)
  : result (list value * Q * rng) :=
  try_except
    (match cpu_percent with
     | Returned l =>
         if match l with [] => false | _ => true end && any_positive l then
           let cpu_percpu := VFloat <$> l in
           let* m := mean cpu_percpu in
           Ok (cpu_percpu, round1 m, g)
         else cpu_fallback count g
     | Failed => Raise OtherError
     end)
    (cpu_fallback count g).

Definition const_rng (z : Z) : rng := fun _ => z.

(** ** The aggregator: [metrics] (lines 225-374) *)

#[local] Set Warnings "-register-all".

(** JSON values, as [jsonify] receives them. *)
Inductive json :=
  | JNull
  | JBool (b : bool)
  | JNum (q : Q)
  | JStr (s : string)
  | JList (l : list json)
  | JObj (fields : list (string * json)).

Definition json_of_value (v : value) : json :=
  match v with
  | VNone => JNull
  | VInt z => JNum (inject_Z z)
  | VFloat q => JNum q
  | VStr s => JStr s
  end.

Definition json_of_int (o : option Z) : json :=
  match o with
  | Some z => JNum (inject_Z z)
  | None => JNull
  end.

Definition json_of_nat (o : option nat) : json :=
  json_of_int (Z.of_nat <$> o).

(** [d.get(k)] on a JSON object. *)
Definition jget (k : string) (j : json) : option json :=
  match j with
  | JObj fields => snd <$> find (fun kv => String.eqb (fst kv) k) fields
  | _ => None
  end.

Definition jkeys (j : json) : list string :=
  match j with
  | JObj fields => fst <$> fields
  | _ => []
  end.

(** A loop that appends one item per element until an element raises, with
    the [try] around the whole loop: the items appended so far stay. *)
Fixpoint collected {A} (items : list (outcome A)) : list A :=
  match items with
  | Returned a :: rest => a :: collected rest
  | _ => []
  end.

(** A loop with the [try] inside its body: a failing element is skipped. *)
Fixpoint survivors {A} (items : list (outcome A)) : list A :=
  match items with
  | Returned a :: rest => a :: survivors rest
  | Failed :: rest => survivors rest
  | [] => []
  end.

Record svmem := {
  vm_percent : Q;
  vm_total : Z;
  vm_available : Z;
  vm_pfaults : option Z;
  vm_pageins : option Z
}.

Record sswap := { sw_percent : Q; sw_total : Z }.

Record sbattery := {
  bat_percent : Q;
  bat_secsleft : Z;
  bat_power_plugged : option bool
}.

Record sdiskpart := { device : string; mountpoint : string; fstype : string }.

Record sdiskusage := { du_percent : Q; du_total : Z; du_free : Z; du_used : Z }.

(** What the operating system answers during one request.  Calls that the
    source wraps in [try] are [outcome]s; so are the calls it leaves
    unwrapped ([virtual_memory], [swap_memory], the process listings and the
    host identity of [get_system_info]), whose failure then propagates.
    [psutil.cpu_count] reports an unknown count by returning [None]. *)
Record host := {
  cpu_percent : outcome (list Q);
  cpu_count_logical : option nat;
  cpu_count_physical : option nat;
  (** [None]: [os] has no [getloadavg]. *)
  getloadavg : option (outcome (Q * Q * Q));
  virtual_memory : outcome svmem;
  swap_memory : outcome sswap;
  disk_partitions : outcome (list (sdiskpart * outcome sdiskusage));
  (** [psutil.net_io_counters(pernic=False)], then [._asdict()]. *)
  net_totals : outcome (option (list (string * json)));
  (** The reads made by [get_io_and_net_speeds]. *)
  io_reading : reading;
  (** [psutil.disk_io_counters()], then [._asdict()]. *)
  disk_totals : outcome (option (list (string * json)));
  (** [None]: [GPUtil] could not be imported (lines 11-14). *)
  gputil : option (outcome (list (outcome json)));
  (** [net_if_addrs]/[net_if_stats], then one [detail] per interface. *)
  interfaces_detail : outcome (list (outcome json));
  sensors_battery : outcome (option sbattery);
  top_by_cpu : outcome (list json);
  top_by_memory : outcome (list json);
  (** [process_iter(["pid"])], then per process the page-fault count found by
      the [or] chain of line 331. *)
  process_faults : outcome (list (outcome (option Z)));
  (** hostname, system, platform, processor, architecture *)
  host_identity : outcome (string * string * string * string * string);
  ip_addresses : outcome (list (outcome json));
  utcnow : string;
  net_connections : outcome nat;
  boot_time : outcome string
}.

(** An unwrapped call: its failure is the caller's. *)
Definition call {A} (o : outcome A) : result A :=
  match o with
  | Returned a => Ok a
  | Failed => Raise OtherError
  end.

(** [a or b] on optional integers: [None] and [0] are falsy. *)
Definition opt_or (a b : option Z) : option Z :=
  match a with
  | Some z => if (z =? 0)%Z then b else a
  | None => b
  end.

(** Lines 241-253. *)
Definition cpu_section (h : host) (cpu_percpu : list value) (cpu_overall : Q) : json :=
  JObj [("cpu_percent", JNum cpu_overall);
        ("cpu_count_logical", json_of_nat (cpu_count_logical h));
        ("cpu_count_physical", json_of_nat (cpu_count_physical h));
        ("per_cpu", JList (json_of_value <$> cpu_percpu));
        ("load_avg",
         match getloadavg h with
         | Some (Returned (l1, l5, l15)) =>
             JObj [("1", JNum l1); ("5", JNum l5); ("15", JNum l15)]
         | _ => JNull
         end)].

(** Lines 256-265. *)
Definition memory_section (vm : svmem) (sm : sswap) : json :=
  JObj [("virtual_percent", JNum (vm_percent vm));
        ("virtual_total", JNum (inject_Z (vm_total vm)));
        ("virtual_available", JNum (inject_Z (vm_available vm)));
        ("swap_percent", JNum (sw_percent sm));
        ("swap_total", JNum (inject_Z (sw_total sm)));
        ("page_faults", json_of_int (opt_or (opt_or (vm_pfaults vm) (vm_pageins vm)) None))].

Definition disk_entry (part : sdiskpart) (usage : sdiskusage) : json :=
  JObj [("device", JStr (device part));
        ("mountpoint", JStr (mountpoint part));
        ("fstype", JStr (fstype part));
        ("percent", JNum (du_percent usage));
        ("total", JNum (inject_Z (du_total usage)));
        ("free", JNum (inject_Z (du_free usage)));
        ("used", JNum (inject_Z (du_used usage)))].

(** Lines 268-285. *)
Definition disks_section (h : host) : json :=
  match disk_partitions h with
  | Returned parts =>
      JList (survivors ((fun pu =>
                           match snd pu with
                           | Returned u => Returned (disk_entry (fst pu) u)
                           | Failed => Failed
                           end) <$> parts))
  | Failed => JList []
  end.

Definition zero_totals : json :=
  JObj [("bytes_sent", JNum 0); ("bytes_recv", JNum 0);
        ("packets_sent", JNum 0); ("packets_recv", JNum 0);
        ("errin", JNum 0); ("errout", JNum 0);
        ("dropin", JNum 0); ("dropout", JNum 0)].

(** Lines 288-291: [None._asdict()] raises too. *)
Definition network_totals_section (h : host) : json :=
  match net_totals h with
  | Returned (Some d) => JObj d
  | _ => zero_totals
  end.

Definition null_disk_totals : json :=
  JObj [("read_count", JNull); ("write_count", JNull);
        ("read_bytes", JNull); ("write_bytes", JNull);
        ("read_time", JNull); ("write_time", JNull)].

(** Lines 297-300. *)
Definition disk_io_totals_section (h : host) : json :=
  match disk_totals h with
  | Returned (Some d) => JObj d
  | _ => null_disk_totals
  end.

(** [_get_gpu_info] (lines 100-117). *)
Definition _get_gpu_info (h : host) : json :=
  match gputil h with
  | Some (Returned gs) => JList (collected gs)
  | _ => JList []
  end.

(** [get_interfaces_detail] (lines 199-219). *)
Definition get_interfaces_detail (h : host) : json :=
  match interfaces_detail h with
  | Returned l => JList (collected l)
  | Failed => JList []
  end.

Definition json_of_bool (o : option bool) : json :=
  match o with
  | Some b => JBool b
  | None => JNull
  end.

Definition no_battery : json :=
  JObj [("present", JBool false); ("percent", JNull);
        ("secsleft", JNull); ("power_plugged", JNull)].

(** Lines 309-318. *)
Definition battery_section (h : host) : json :=
  match sensors_battery h with
  | Returned (Some b) =>
      JObj [("present", JBool true); ("percent", JNum (bat_percent b));
            ("secsleft", JNum (inject_Z (bat_secsleft b)));
            ("power_plugged", json_of_bool (bat_power_plugged b))]
  | Returned None =>
      JObj [("present", JBool false); ("percent", JNull);
            ("secsleft", JNull); ("power_plugged", JNull)]
  | Failed => no_battery
  end.

(** Lines 325-338 and 369: [total_pf if pf_available else None]. *)
Definition page_faults_total (h : host) : json :=
  match process_faults h with
  | Returned ps =>
      let found := omap id (survivors ps) in
      match found with
      | [] => JNull
      | _ => JNum (inject_Z (foldr Z.add 0%Z found))
      end
  | Failed => JNull
  end.

(** [get_system_info] (lines 31-48). *)
Definition get_system_info (h : host) : result json :=
  let* idn := call (host_identity h) in
  let '(hostname, system, platform, processor, architecture) := idn in
  Ok (JObj [("hostname", JStr hostname);
            ("ip_addresses",
             JList match ip_addresses h with
                   | Returned l => collected l
                   | Failed => []
                   end);
            ("system", JStr system);
            ("platform", JStr platform);
            ("processor", JStr processor);
            ("architecture", JStr architecture)]).

Definition json_of_net_speeds (n : net_speeds) : json :=
  JObj [("bytes_sent_per_sec", json_of_value (bytes_sent_per_sec n));
        ("bytes_recv_per_sec", json_of_value (bytes_recv_per_sec n))].

Definition json_of_nic_speeds (e : nic_speeds) : json :=
  JObj [("bytes_sent_per_sec", json_of_value (nic_bytes_sent_per_sec e));
        ("bytes_recv_per_sec", json_of_value (nic_bytes_recv_per_sec e));
        ("packets_sent", json_of_int (nic_packets_sent e));
        ("packets_recv", json_of_int (nic_packets_recv e))].

Definition json_of_disk_speeds (d : disk_speeds) : json :=
  JObj [("read_bytes_per_sec", json_of_value (read_bytes_per_sec d));
        ("write_bytes_per_sec", json_of_value (write_bytes_per_sec d));
        ("read_count", json_of_int (io_read_count d));
        ("write_count", json_of_int (io_write_count d))].

(** The keys of the dict passed to [jsonify] (lines 354-374), in order. *)
Definition response_keys : list string :=
  ["cpu"; "memory"; "disks"; "network_totals"; "network_speeds";
   "per_nic_speeds"; "disk_io_speeds"; "disk_io_totals"; "gpu"; "system_info";
   "interfaces"; "battery"; "top_processes_cpu"; "top_processes_mem";
   "page_faults_total"; "uptime_boot_time"; "timestamp"; "connections_count";
   "message"].

(** The dict handed to [jsonify] (lines 354-374). *)
Definition response (cpu memory disks net : json) (speeds : speeds)
    (disk_io_tot gpus sysinfo interfaces battery : json)
    (procs_cpu procs_mem : list json) (total_pf uptime : json)
    (timestamp : string) (connections_count : Z) : json :=
  JObj [("cpu", cpu);
        ("memory", memory);
        ("disks", disks);
        ("network_totals", net);
        ("network_speeds", json_of_net_speeds (sp_net speeds));
        ("per_nic_speeds",
         JObj (map_to_list (json_of_nic_speeds <$> sp_per_nic speeds)));
        ("disk_io_speeds", json_of_disk_speeds (sp_disk_io speeds));
        ("disk_io_totals", disk_io_tot);
        ("gpu", gpus);
        ("system_info", sysinfo);
        ("interfaces", interfaces);
        ("battery", battery);
        ("top_processes_cpu", JList procs_cpu);
        ("top_processes_mem", JList procs_mem);
        ("page_faults_total", total_pf);
        ("uptime_boot_time", uptime);
        ("timestamp", JStr timestamp);
        ("connections_count", JNum (inject_Z connections_count));
        ("message", JNull)].

(** Lines 343-347. *)
Definition connections_count (h : host) : Z :=
  match net_connections h with
  | Returned n => Z.of_nat n
  | Failed => 0%Z
  end.

(** Lines 349-352. *)
Definition uptime (h : host) : json :=
  match boot_time h with
  | Returned t => JStr t
  | Failed => JNull
  end.

(** [metrics] (lines 225-374): the response, with the random stream and the
    snapshot store passed in and out. *)
Definition metrics (h : host) (g : rng) (store : snapshot)
  : result (json * rng * snapshot) :=
  let* c := sample_cpu (cpu_percent h) (cpu_count_logical h) g in
  let cpu := cpu_section h (fst (fst c)) (snd (fst c)) in
  let* vm := call (virtual_memory h) in
  let* sm := call (swap_memory h) in
  let memory := memory_section vm sm in
  let disks := disks_section h in
  let net := network_totals_section h in
  let* sp := get_io_and_net_speeds store (io_reading h) in
  let disk_io_tot := disk_io_totals_section h in
  let gpus := _get_gpu_info h in
  let interfaces := get_interfaces_detail h in
  let battery := battery_section h in
  let* procs_cpu := call (top_by_cpu h) in
  let* procs_mem := call (top_by_memory h) in
  let total_pf := page_faults_total h in
  let* sysinfo := get_system_info h in
  Ok (response cpu memory disks net (fst sp) disk_io_tot gpus sysinfo interfaces
        battery procs_cpu procs_mem total_pf (uptime h) (utcnow h)
        (connections_count h),
      snd c, snd sp).

Definition returned {A} (o : outcome A) : Prop := exists a, o = Returned a.

(** The calls [metrics] makes outside any [try] block all return. *)
Definition unwrapped_calls_return (h : host) : Prop :=
  returned (virtual_memory h)
  /\ returned (swap_memory h)
  /\ returned (top_by_cpu h)
  /\ returned (top_by_memory h)
  /\ returned (host_identity h).

(** The weakest reading of "populated with null fields or an empty list":
    null itself, the empty list, or an object with at least one null field. *)
Definition unavailable_marker (j : json) : Prop :=
  j = JNull
  \/ j = JList []
  \/ exists fields, j = JObj fields /\ Exists (fun kv => snd kv = JNull) fields.

(** The eighteen fields the interface promises. *)
Definition promised_keys : list string :=
  ["cpu"; "memory"; "disks"; "network_totals"; "network_speeds";
   "per_nic_speeds"; "disk_io_speeds"; "disk_io_totals"; "gpu"; "system_info";
   "interfaces"; "battery"; "top_processes_cpu"; "top_processes_mem";
   "page_faults_total"; "uptime_boot_time"; "timestamp"; "connections_count"].

(** A host on which every optional subsystem is unavailable: every wrapped
    call fails, the CPU sample is all zero, the core count is unknown. *)
Definition bare_host : host :=
  {| cpu_percent := Returned [0; 0];
     cpu_count_logical := None;
     cpu_count_physical := None;
     getloadavg := None;
     virtual_memory := Returned {| vm_percent := 40; vm_total := 8000;
                                   vm_available := 4800;
                                   vm_pfaults := None; vm_pageins := None |};
     swap_memory := Returned {| sw_percent := 0; sw_total := 0 |};
     disk_partitions := Failed;
     net_totals := Failed;
     io_reading := {| clock := 1700000000; read_net := Failed;
                      read_pernic := Failed; read_disk := Failed |};
     disk_totals := Failed;
     gputil := None;
     interfaces_detail := Failed;
     sensors_battery := Failed;
     top_by_cpu := Returned [];
     top_by_memory := Returned [];
     process_faults := Failed;
     host_identity := Returned ("h", "Linux", "Linux-6", "x86_64", "x86_64");
     ip_addresses := Failed;
     utcnow := "2026-01-01T00:00:00";
     net_connections := Failed;
     boot_time := Failed |}.

(** The same host with [psutil.virtual_memory()] raising. *)
Definition no_meminfo_host : host :=
  {| cpu_percent := cpu_percent bare_host;
     cpu_count_logical := cpu_count_logical bare_host;
     cpu_count_physical := cpu_count_physical bare_host;
     getloadavg := getloadavg bare_host;
     virtual_memory := Failed;
     swap_memory := swap_memory bare_host;
     disk_partitions := disk_partitions bare_host;
     net_totals := net_totals bare_host;
     io_reading := io_reading bare_host;
     disk_totals := disk_totals bare_host;
     gputil := gputil bare_host;
     interfaces_detail := interfaces_detail bare_host;
     sensors_battery := sensors_battery bare_host;
     top_by_cpu := top_by_cpu bare_host;
     top_by_memory := top_by_memory bare_host;
     process_faults := process_faults bare_host;
     host_identity := host_identity bare_host;
     ip_addresses := ip_addresses bare_host;
     utcnow := utcnow bare_host;
     net_connections := net_connections bare_host;
     boot_time := boot_time bare_host |}.

(** ** Provenance of the store's fields under any schedule *)

(** How many of the eight accesses a poller has made. *)
Definition pc_index (l : pc) : nat :=
  match l with
  | LoadTime => 0 | LoadNet => 1 | LoadPernic => 2 | LoadDisk => 3
  | StoreTime => 4 | StoreNet => 5 | StorePernic => 6 | StoreDisk => 7
  | Finished => 8
  end.

(** Each field of [g] is the initial store's field or the corresponding
    field of one of the samples; the four fields may come from different
    samples. *)
Definition fields_from (g0 : snapshot) (rs : list reading) (g : snapshot) : Prop :=
  (time g = time g0 \/ exists r, r ∈ rs /\ time g = Some (clock r))
  /\ (net g = net g0 \/ exists r, r ∈ rs /\ net g = cur_net r)
  /\ (net_pernic g = net_pernic g0
      \/ exists r, r ∈ rs /\ net_pernic g = Some (cur_pernic r))
  /\ (disk_io g = disk_io g0 \/ exists r, r ∈ rs /\ disk_io g = cur_disk r).

(** The locals a poller has loaded so far have that provenance. *)
Definition poller_ok (g0 : snapshot) (rs : list reading) (p : poller) : Prop :=
  sample p ∈ rs
  /\ ((0 < pc_index (at_pc p))%nat ->
      seen_time p = time g0 \/ exists r, r ∈ rs /\ seen_time p = Some (clock r))
  /\ ((1 < pc_index (at_pc p))%nat ->
      seen_net p = net g0 \/ exists r, r ∈ rs /\ seen_net p = cur_net r)
  /\ ((2 < pc_index (at_pc p))%nat ->
      seen_pernic p = net_pernic g0
      \/ exists r, r ∈ rs /\ seen_pernic p = Some (cur_pernic r))
  /\ ((3 < pc_index (at_pc p))%nat ->
      seen_disk p = disk_io g0 \/ exists r, r ∈ rs /\ seen_disk p = cur_disk r).

(** ** Process listings (lines 50-98) *)

Module Processes.

(** The dict [p.info] of one process.  psutil leaves a field [None] when
    it could not be read. *)
Record proc_info := {
  pid : Z;
  name : option string;
  username : option string;
  cmdline : option (list string);
  cpu_percent : option Q;
  memory_percent : option Q
}.

(** The attributes of [p.memory_info()] that line 90 looks at, each absent
    or present. *)
Record pmem := {
  num_page_faults : option Z;
  pfaults : option Z;
  page_faults : option Z
}.

(** One process as [process_iter] yields it: its [info], and what the live
    calls on it would return. *)
Record process := {
  info : outcome proc_info;
  live_cpu_percent : outcome Q;
  live_memory_percent : outcome Q;
  memory_info : outcome pmem
}.

(** Lines 56-60 and 82-86: a missing [cpu_percent] is fetched live, and is
    [0.0] when that fails. *)
Definition fill_cpu (p : process) (i : proc_info) : proc_info :=
  match cpu_percent i with
  | Some _ => i
  | None =>
      {| pid := pid i; name := name i; username := username i; cmdline := cmdline i;
         cpu_percent := Some match live_cpu_percent p with
                             | Returned q => q
                             | Failed => 0
                             end;
         memory_percent := memory_percent i |}
  end.

(** Lines 61-65 and 77-81. *)
Definition fill_memory (p : process) (i : proc_info) : proc_info :=
  match memory_percent i with
  | Some _ => i
  | None =>
      {| pid := pid i; name := name i; username := username i; cmdline := cmdline i;
         cpu_percent := cpu_percent i;
         memory_percent := Some match live_memory_percent p with
                                | Returned q => q
                                | Failed => 0
                                end |}
  end.

(** [x.get(k) or 0] on an optional float. *)
Definition or_0 (o : option Q) : Q := default 0 o.

(** The sort key of line 69. *)
Definition cpu_key (i : proc_info) : Q :=
  or_0 (cpu_percent i) + or_0 (memory_percent i).

(** The sort key of line 97. *)
Definition memory_key (i : proc_info) : Q := or_0 (memory_percent i).

(** [list.sort(key=..., reverse=True)]: descending by key, and stable, so
    entries with equal keys keep their order. *)
Fixpoint insert_desc {A} (key : A -> Q) (x : A) (l : list A) : list A :=
  match l with
  | [] => [x]
  | y :: ys =>
      if Qle_bool (key y) (key x) then x :: y :: ys
      else y :: insert_desc key x ys
  end.

Definition sort_desc {A} (key : A -> Q) (l : list A) : list A :=
  foldr (insert_desc key) [] l.

(** Lines 51-68: the entries appended to [procs]; a process whose [info]
    cannot be read is skipped. *)
Definition cpu_entries (ps : list process) : list proc_info :=
  omap (fun p => match info p with
                 | Returned i => Some (fill_memory p (fill_cpu p i))
                 | Failed => None
                 end) ps.

(** [get_top_processes_by_cpu] (lines 50-70). *)
Definition get_top_processes_by_cpu (n : nat) (ps : list process) : list proc_info :=
  take n (sort_desc cpu_key (cpu_entries ps)).

(** Line 90: [a or b or c] on the three attributes; lines 88-92: [None]
    when [memory_info()] raises. *)
Definition page_faults_of (p : process) : option Z :=
  match memory_info p with
  | Returned m => opt_or (opt_or (num_page_faults m) (pfaults m)) (page_faults m)
  | Failed => None
  end.

(** Lines 73-96: each entry with its ["page_faults"] value. *)
Definition memory_entries (ps : list process) : list (proc_info * option Z) :=
  omap (fun p => match info p with
                 | Returned i => Some (fill_cpu p (fill_memory p i), page_faults_of p)
                 | Failed => None
                 end) ps.

(** [get_top_processes_by_memory] (lines 72-98). *)
Definition get_top_processes_by_memory (n : nat) (ps : list process)
  : list (proc_info * option Z) :=
  take n (sort_desc (fun e => memory_key (fst e)) (memory_entries ps)).

(** Descending order of keys. *)
Definition key_desc {A} (key : A -> Q) (x y : A) : Prop := key y <= key x.

Definition busy : process :=
  {| info := Returned {| pid := 10; name := Some "busy"; username := None;
                         cmdline := None; cpu_percent := Some 50;
                         memory_percent := Some 5 |};
     live_cpu_percent := Failed; live_memory_percent := Failed;
     memory_info := Returned {| num_page_faults := None; pfaults := Some 0%Z;
                                page_faults := Some 120%Z |} |}.

Definition fresh : process :=
  {| info := Returned {| pid := 11; name := Some "fresh"; username := None;
                         cmdline := None; cpu_percent := None;
                         memory_percent := None |};
     live_cpu_percent := Returned 70; live_memory_percent := Failed;
     memory_info := Failed |}.

Definition gone : process :=
  {| info := Failed; live_cpu_percent := Failed; live_memory_percent := Failed;
     memory_info := Failed |}.

End Processes.

(** ** Interface descriptors (lines 25-48 and 199-219) *)

Module Interfaces.

(** [addr.family]: a [socket.AddressFamily] member, which has a [name], or
    a plain integer when the number is no member of the enum. *)
Inductive sockfam :=
  | Enum (fname : string) (num : Z)
  | Raw (num : Z).

Definition family_num (f : sockfam) : Z :=
  match f with
  | Enum _ k => k
  | Raw k => k
  end.

Record snicaddr := { family : sockfam; address : string }.

(** What [_safe_family_name] returns: the name, or the family itself. *)
Inductive fam :=
  | FName (s : string)
  | FRaw (k : Z).

(** [_safe_family_name] (lines 25-29): a plain integer has no [name]. *)
Definition _safe_family_name (addr : snicaddr) : fam :=
  match family addr with
  | Enum n _ => FName n
  | Raw k => FRaw k
  end.

Record snicstats := { isup : bool; speed : option Z }.

Record detail := {
  d_iface : string;
  d_ips : list string;
  d_mac : option string;
  d_is_up : option bool;
  d_speed : option Z
}.

Section Platform.
(** The platform's values of [socket.AF_INET], [socket.AF_INET6] and
    [psutil.AF_LINK]. *)
Variables (AF_INET AF_INET6 AF_LINK : Z).

(** [fam in ("AF_INET", "AF_INET6")] *)
Definition inet_name (f : fam) : bool :=
  match f with
  | FName s => String.eqb s "AF_INET" || String.eqb s "AF_INET6"
  | FRaw _ => false
  end.

(** [fam == socket.AF_INET or fam == socket.AF_INET6] (line 44): a name is
    a string and equals no enum member. *)
Definition inet_value (f : fam) : bool :=
  match f with
  | FName _ => false
  | FRaw k => (k =? AF_INET)%Z || (k =? AF_INET6)%Z
  end.

(** The test of line 44. *)
Definition listed_as_ip (a : snicaddr) : bool :=
  let f := _safe_family_name a in inet_name f || inet_value f.

(** Lines 41-45, for the dict [net_if_addrs()] returned. *)
Definition ip_addresses_of (addrs : list (string * list snicaddr))
  : list (string * string) :=
  flat_map (fun ia => (fun a => (fst ia, address a)) <$> filter listed_as_ip (snd ia))
           addrs.

(** The [ip_addresses] of [get_system_info] (lines 40-47). *)
Definition ip_addresses (net_if_addrs : outcome (list (string * list snicaddr)))
  : list (string * string) :=
  match net_if_addrs with
  | Returned addrs => ip_addresses_of addrs
  | Failed => []
  end.

(** The test of line 208. *)
Definition is_link (a : snicaddr) : bool :=
  match _safe_family_name a with
  | FName s => String.eqb s "AF_LINK"
  | FRaw _ => false
  end || (family_num (family a) =? AF_LINK)%Z.

(** The test of line 210: here the family itself is compared. *)
Definition is_inet (a : snicaddr) : bool :=
  inet_name (_safe_family_name a)
  || (family_num (family a) =? AF_INET)%Z
  || (family_num (family a) =? AF_INET6)%Z.

(** Lines 206-211: one address of the inner loop, on [(ips, mac)]. *)
Definition scan_addr (acc : list string * option string) (a : snicaddr)
  : list string * option string :=
  if is_link a then (fst acc, Some (address a))
  else if is_inet a then (fst acc ++ [address a], snd acc)
  else acc.

(** Lines 205-216: the [detail] of one interface. *)
Definition detail_of (stats : gmap string snicstats)
    (ia : string * list snicaddr) : detail :=
  let acc := foldl scan_addr ([], None) (snd ia) in
  let st := stats !! fst ia in
  {| d_iface := fst ia;
     d_ips := fst acc;
     d_mac := snd acc;
     d_is_up := isup <$> st;
     d_speed := st ≫= speed |}.

(** [get_interfaces_detail] (lines 199-219): both reads sit in the [try]
    before anything is appended. *)
Definition get_interfaces_detail
    (net_if_addrs : outcome (list (string * list snicaddr)))
    (net_if_stats : outcome (gmap string snicstats)) : list detail :=
  match net_if_addrs, net_if_stats with
  | Returned addrs, Returned stats => detail_of stats <$> addrs
  | _, _ => []
  end.

(** A family whose name and number agree, as the members of
    [socket.AddressFamily] do. *)
Definition wf_family (f : sockfam) : Prop :=
  match f with
  | Enum n k =>
      (n = "AF_INET" <-> k = AF_INET) /\ (n = "AF_INET6" <-> k = AF_INET6)
  | Raw _ => True
  end.
End Platform.

(** Linux: [AF_INET = 2], [AF_INET6 = 10], [AF_LINK = AF_PACKET = 17]. *)
Definition eth0_addrs : list snicaddr :=
  [ {| family := Enum "AF_INET" 2; address := "10.0.0.5" |};
    {| family := Enum "AF_PACKET" 17; address := "aa:bb:cc:dd:ee:ff" |};
    {| family := Enum "AF_INET6" 10; address := "fe80::1" |} ].

End Interfaces.

(** * Properties *)

(** ** Concrete runs *)

Example calc_speed_500 :
  _calc_speed (VFloat 2) (VFloat 1) (VInt 1500) (VInt 1000) = Ok (VFloat (500 / 1)).
Proof. reflexivity. Qed.

Example calc_speed_prev_zero :
  _calc_speed (VFloat 2) (VFloat 1) (VInt 1500) (VInt 0) = Ok (VFloat (0 / 1)).
Proof. reflexivity. Qed.

Example calc_speed_missing_now :
  _calc_speed (VFloat 2) (VFloat 1) VNone (VInt 7) = Ok (VFloat 0).
Proof. reflexivity. Qed.

Example calc_speed_now_none :
  _calc_speed VNone (VFloat 1) (VInt 3) (VInt 7) = Raise TypeError.
Proof. reflexivity. Qed.

Example run_cold :
  rate_of (get_io_and_net_speeds _prev_snapshot sample_a)
          (fun sp => Some (bytes_sent_per_sec (sp_net sp))) = Some (VFloat 0).
Proof. vm_compute. reflexivity. Qed.

Example run_warm_net :
  rate_of (get_io_and_net_speeds (stored sample_a) sample_b)
          (fun sp => Some (bytes_sent_per_sec (sp_net sp))) = Some (VFloat (500 / 1)).
Proof. vm_compute. reflexivity. Qed.

Example run_warm_eth0 :
  rate_of (get_io_and_net_speeds (stored sample_a) sample_b)
          (fun sp => nic_bytes_sent_per_sec <$> sp_per_nic sp !! "eth0")
  = Some (VFloat (200 / 1)).
Proof. vm_compute. reflexivity. Qed.

Example run_warm_eth1 :
  rate_of (get_io_and_net_speeds (stored sample_a) sample_b)
          (fun sp => nic_bytes_sent_per_sec <$> sp_per_nic sp !! "eth1")
  = Some (VFloat 0).
Proof. vm_compute. reflexivity. Qed.

(** A stored timestamp of [0.0] is falsy: line 159 takes the cold branch. *)
Example run_epoch_zero :
  rate_of (get_io_and_net_speeds epoch_store one_second)
          (fun sp => Some (bytes_sent_per_sec (sp_net sp))) = Some (VFloat 0).
Proof. vm_compute. reflexivity. Qed.

(** ** The arithmetic of [_calc_speed] *)

Lemma eps_pos : 0 < eps.
Proof. reflexivity. Qed.

Lemma Qnonzero_true q : Qnonzero q = true <-> ~ q == 0.
Proof.
  unfold Qnonzero. rewrite negb_true_iff. split.
  - intros H E. apply Qeq_bool_iff in E. congruence.
  - intros H. destruct (Qeq_bool q 0) eqn:E; [|reflexivity].
    apply Qeq_bool_iff in E. contradiction.
Qed.

Lemma Qeq_bool_pos q : 0 < q -> Qeq_bool q 0 = false.
Proof.
  intros H. destruct (Qeq_bool q 0) eqn:E; [|reflexivity].
  apply Qeq_bool_iff in E. lra.
Qed.

(** The elapsed time is a float, at least [eps], whatever the timestamps. *)
Lemma calc_dt_floor (now : Q) (prev : option Q) :
  exists dt, calc_dt (VFloat now) (time_value prev) = Ok (VFloat dt) /\ eps <= dt.
Proof.
  unfold calc_dt, py_or.
  destruct prev as [pt|]; cbn [time_value truthy];
    [destruct (Qnonzero pt)|]; cbn [py_sub bind py_max py_gt num_of].
  all: match goal with
       | |- context [Qle_bool eps ?d] =>
           destruct (Qle_bool eps d) eqn:E; cbn [negb];
           [apply Qle_bool_iff in E; eexists; split; [reflexivity|exact E]
           |eexists; split; [reflexivity|lra]]
       end.
Qed.

(** With a truthy previous timestamp the elapsed time is
    [max (now - prev) eps]. *)
Lemma calc_dt_max (now pt : Q) :
  Qnonzero pt = true ->
  exists dt, calc_dt (VFloat now) (VFloat pt) = Ok (VFloat dt)
             /\ dt == Qmax (now - pt) eps.
Proof.
  intros Hpt. unfold calc_dt, py_or. cbn [truthy]. rewrite Hpt.
  cbn [py_sub bind py_max py_gt num_of].
  destruct (Qle_bool eps (now - pt)) eqn:E; cbn [negb]; eexists; (split; [reflexivity|]).
  - apply Qle_bool_iff in E. symmetry. apply Q.max_l. exact E.
  - symmetry. apply Q.max_r.
    destruct (Qlt_le_dec (now - pt) eps) as [L|L]; [lra|].
    apply Qle_bool_iff in L. congruence.
Qed.

(** When the elapsed time is zero or negative, [dt] is exactly the floor. *)
Lemma calc_dt_nonpositive (now pt : Q) :
  now - pt <= 0 -> calc_dt (VFloat now) (VFloat pt) = Ok (VFloat eps).
Proof.
  intros H. unfold calc_dt, py_or. cbn [truthy].
  assert (G : forall d, d <= 0 -> Qle_bool eps d = false).
  { intros d Hd. destruct (Qle_bool eps d) eqn:E; [|reflexivity].
    apply Qle_bool_iff in E. pose proof eps_pos. lra. }
  destruct (Qnonzero pt); cbn [py_sub bind py_max py_gt num_of].
  - rewrite (G _ H). reflexivity.
  - rewrite G; [reflexivity|lra].
Qed.

(** The guarded division never raises when [dt] is a positive float. *)
Lemma rate_over_total (dt : Q) (now_val prev_val : value) :
  0 < dt -> exists q, rate_over (VFloat dt) now_val prev_val = Ok (VFloat q).
Proof.
  intros Hdt. unfold rate_over.
  destruct (py_sub now_val (py_or prev_val now_val)) as [n|e]; cbn [bind try_except].
  - unfold py_truediv. cbn [num_of]. rewrite (Qeq_bool_pos _ Hdt).
    destruct (num_of n); cbn [try_except]; eauto.
  - eauto.
Qed.

(** On integer counters the guarded division is the plain quotient. *)
Lemma rate_over_ints (dt : Q) (a b : Z) :
  0 < dt ->
  rate_over (VFloat dt) (VInt a) (VInt b)
  = Ok (VFloat (inject_Z (a - or_int b a) / dt)).
Proof.
  intros Hdt. unfold rate_over, py_or, or_int. cbn [truthy].
  destruct (b =? 0)%Z; cbn [negb py_sub bind];
    unfold py_truediv; cbn [num_of]; rewrite (Qeq_bool_pos _ Hdt); reflexivity.
Qed.

Lemma calc_speed_total (now : Q) (prev : option Q) (now_val prev_val : value) :
  exists q, _calc_speed (VFloat now) (time_value prev) now_val prev_val = Ok (VFloat q).
Proof.
  unfold _calc_speed.
  destruct (calc_dt_floor now prev) as (dt & -> & Hdt). cbn [bind].
  apply rate_over_total. pose proof eps_pos. lra.
Qed.

Lemma calc_speed_ints (now pt : Q) (a b : Z) :
  Qnonzero pt = true ->
  exists q, _calc_speed (VFloat now) (VFloat pt) (VInt a) (VInt b) = Ok (VFloat q)
            /\ q == inject_Z (a - or_int b a) / Qmax (now - pt) eps.
Proof.
  intros Hpt. unfold _calc_speed.
  destruct (calc_dt_max now pt Hpt) as (dt & -> & Hdt). cbn [bind].
  assert (0 < dt).
  { rewrite Hdt. pose proof (Q.le_max_r (now - pt) eps). pose proof eps_pos. lra. }
  rewrite rate_over_ints by assumption.
  eexists; split; [reflexivity|]. rewrite Hdt. reflexivity.
Qed.

(** ** One poll: [get_io_and_net_speeds] *)

Lemma net_part_total now pt pn cur :
  exists n, net_part now pt pn cur = Ok n.
Proof.
  unfold net_part. destruct cur as [c|]; [|eauto].
  destruct pt as [t|]; [|eauto]. destruct pn as [p|]; [|eauto].
  destruct (Qnonzero t); [|eauto].
  destruct (calc_speed_total now (Some t) (VInt (bytes_sent c)) (VInt (bytes_sent p)))
    as [q1 E1].
  destruct (calc_speed_total now (Some t) (VInt (bytes_recv c)) (VInt (bytes_recv p)))
    as [q2 E2].
  cbn [time_value] in E1, E2. rewrite E1, E2. cbn [bind]. eauto.
Qed.

Lemma nic_entry_total now pt pp nic c :
  exists e, nic_entry now pt pp nic c = Ok e
            /\ nic_packets_sent e = packets_sent c
            /\ nic_packets_recv e = packets_recv c.
Proof.
  unfold nic_entry. destruct pt as [t|]; [|cbn; eauto].
  destruct (prev_counters pp nic) as [p|]; [|cbn; eauto].
  destruct (Qnonzero t); [|cbn; eauto].
  destruct (calc_speed_total now (Some t) (VInt (bytes_sent c)) (VInt (bytes_sent p)))
    as [q1 E1].
  destruct (calc_speed_total now (Some t) (VInt (bytes_recv c)) (VInt (bytes_recv p)))
    as [q2 E2].
  cbn [time_value] in E1, E2. rewrite E1, E2. cbn. eauto.
Qed.

Lemma disk_part_total now pt pd cur :
  exists d, disk_part now pt pd cur = Ok d.
Proof.
  unfold disk_part. destruct cur as [c|]; [|eauto].
  destruct pt as [t|]; [|cbn; eauto]. destruct pd as [p|]; [|cbn; eauto].
  destruct (Qnonzero t); [|cbn; eauto].
  destruct (calc_speed_total now (Some t) (VInt (read_bytes c)) (VInt (read_bytes p)))
    as [q1 E1].
  destruct (calc_speed_total now (Some t) (VInt (write_bytes c)) (VInt (write_bytes p)))
    as [q2 E2].
  cbn [time_value] in E1, E2. rewrite E1, E2. cbn. eauto.
Qed.

(** The loop produces one entry per item of the current dict, and that
    entry is what the loop body computes for the item. *)
Lemma pernic_part_lookup now pt pp (cur : gmap string snetio) :
  exists p, pernic_part now pt pp cur = Ok p
            /\ forall k, p !! k = cur !! k ≫= fun c => to_option (nic_entry now pt pp k c).
Proof.
  unfold pernic_part, dict_truthy. case_bool_decide as Hcur; cbn [negb].
  { subst cur. exists ∅. split; [reflexivity|]. intros k. by rewrite !lookup_empty. }
  clear Hcur.
  apply (map_fold_weak_ind (fun acc (m : gmap string snetio) =>
           exists p, acc = Ok p
             /\ forall k, p !! k = m !! k ≫= fun c => to_option (nic_entry now pt pp k c))).
  - exists ∅. split; [reflexivity|]. intros k. by rewrite !lookup_empty.
  - intros i x m acc Hi (p & -> & Hp).
    destruct (nic_entry_total now pt pp i x) as (e & He & _).
    exists (<[i:=e]> p). cbn [bind]. rewrite He. cbn [bind]. split; [reflexivity|].
    intros k. destruct (decide (i = k)) as [->|Hne].
    + rewrite !lookup_insert_eq. cbn. rewrite He. reflexivity.
    + rewrite !lookup_insert_ne by assumption. apply Hp.
Qed.

(** A poll always returns, and always stores the sample it read. *)
Lemma poll_total (s : snapshot) (r : reading) :
  exists sp, get_io_and_net_speeds s r = Ok (sp, stored r).
Proof.
  unfold get_io_and_net_speeds.
  destruct (net_part_total (clock r) (time s) (net s) (cur_net r)) as [n ->].
  destruct (pernic_part_lookup (clock r) (time s) (net_pernic s) (cur_pernic r))
    as (p & -> & _).
  destruct (disk_part_total (clock r) (time s) (disk_io s) (cur_disk r)) as [d ->].
  cbn [bind]. eauto.
Qed.

(** The three sections of a poll's result, read back from the result. *)
Lemma poll_sections (s : snapshot) (r : reading) sp s' :
  get_io_and_net_speeds s r = Ok (sp, s') ->
  s' = stored r
  /\ net_part (clock r) (time s) (net s) (cur_net r) = Ok (sp_net sp)
  /\ pernic_part (clock r) (time s) (net_pernic s) (cur_pernic r) = Ok (sp_per_nic sp)
  /\ disk_part (clock r) (time s) (disk_io s) (cur_disk r) = Ok (sp_disk_io sp).
Proof.
  unfold get_io_and_net_speeds.
  destruct (net_part _ _ _ _) as [n|]; [|discriminate].
  destruct (pernic_part _ _ _ _) as [p|]; [|discriminate].
  destruct (disk_part _ _ _ _) as [d|]; [|discriminate].
  cbn [bind]. intros [= <- <-]. auto.
Qed.

(** Every entry of the per-interface result is the loop body's value for
    the same key of the current dict, and there are no other entries. *)
Lemma poll_per_nic (s : snapshot) (r : reading) sp s' :
  get_io_and_net_speeds s r = Ok (sp, s') ->
  forall k, sp_per_nic sp !! k
            = cur_pernic r !! k ≫= fun c =>
                to_option (nic_entry (clock r) (time s) (net_pernic s) k c).
Proof.
  intros H. apply poll_sections in H as (_ & _ & Hp & _).
  destruct (pernic_part_lookup (clock r) (time s) (net_pernic s) (cur_pernic r))
    as (p & Ep & Hl).
  rewrite Ep in Hp. injection Hp as <-. exact Hl.
Qed.

(** ** Rates per counter *)

Lemma stored_counter (c : counter) (r : reading) :
  prev_counter c (stored r) = read_counter c r.
Proof. reflexivity. Qed.

Lemma fmap_Some_inv {A B} (f : A -> B) (o : option A) (b : B) :
  f <$> o = Some b -> exists a, o = Some a /\ f a = b.
Proof. destruct o as [a|]; [intros [= <-]; eauto|discriminate]. Qed.

(** Line 168 finds the previous counters of an interface exactly when the
    stored per-interface dict has the key. *)
Lemma prev_counters_lookup (pp : option (gmap string snetio)) (nic : string) :
  prev_counters pp nic = default ∅ pp !! nic.
Proof.
  unfold prev_counters, dict_truthy, default.
  destruct pp as [m|]; cbn [from_option id].
  - case_bool_decide as E; cbn [negb]; [|reflexivity].
    subst m. by rewrite lookup_empty.
  - by rewrite lookup_empty.
Qed.

(** No previous value, or no current value: the reported rate, if any, is
    the literal [0.0]. *)
Lemma rate_zero (s : snapshot) (r : reading) sp s' (c : counter) :
  get_io_and_net_speeds s r = Ok (sp, s') ->
  time s = None \/ prev_counter c s = None \/ read_counter c r = None ->
  forall v, reported_rate c sp = Some v -> v = VFloat 0.
Proof.
  intros H Hcold v Hv.
  pose proof (poll_per_nic _ _ _ _ H) as Hnic.
  apply poll_sections in H as (_ & Hn & _ & Hd).
  unfold prev_counter, read_counter in Hcold.
  destruct c as [| |nic|nic| |]; cbn [reported_rate counter_value] in Hv, Hcold.
  1,2: unfold net_part in Hn; injection Hv as <-;
       destruct (cur_net r) as [n|]; [|injection Hn as <-; reflexivity];
       destruct (time s) as [t|]; [|injection Hn as <-; reflexivity];
       destruct (net s) as [pn|]; [|injection Hn as <-; reflexivity];
       destruct Hcold as [?|[?|?]]; discriminate.
  3,4: unfold disk_part in Hd; injection Hv as <-;
       destruct (cur_disk r) as [d|]; [|injection Hd as <-; reflexivity];
       destruct (time s) as [t|]; [|injection Hd as <-; reflexivity];
       destruct (disk_io s) as [pd|]; [|injection Hd as <-; reflexivity];
       destruct Hcold as [?|[?|?]]; discriminate.
  all: rewrite Hnic in Hv; destruct (cur_pernic r !! nic) as [cc|] eqn:Ecur;
       [|discriminate]; cbn in Hv; unfold nic_entry in Hv;
       rewrite prev_counters_lookup in Hv;
       destruct (time s) as [t|];
       [destruct (default ∅ (net_pernic s) !! nic) as [pc|];
        [destruct Hcold as [?|[?|?]]; discriminate|]|];
       cbn in Hv; injection Hv as <-; reflexivity.
Qed.

(** A truthy stored timestamp, a stored value and a current value: the
    reported rate is the difference quotient over the floored elapsed time. *)
Lemma rate_warm (s : snapshot) (r : reading) (c : counter) (T1 : Q) (C1 C2 : Z) :
  time s = Some T1 -> Qnonzero T1 = true ->
  prev_counter c s = Some C1 -> read_counter c r = Some C2 ->
  exists sp q,
    get_io_and_net_speeds s r = Ok (sp, stored r)
    /\ reported_rate c sp = Some (VFloat q)
    /\ q == inject_Z (C2 - or_int C1 C2) / Qmax (clock r - T1) eps.
Proof.
  intros Ht Hnz Hprev Hcur.
  destruct (poll_total s r) as [sp H]. exists sp.
  pose proof (poll_per_nic _ _ _ _ H) as Hnic.
  pose proof (poll_sections _ _ _ _ H) as (_ & Hn & _ & Hd).
  unfold prev_counter, read_counter in Hprev, Hcur.
  destruct c as [| |nic|nic| |]; cbn [reported_rate counter_value] in *;
    apply fmap_Some_inv in Hprev as (p & Ep & <-);
    apply fmap_Some_inv in Hcur as (n & En & <-).
  1,2: unfold net_part in Hn; rewrite En, Ht, Ep, Hnz in Hn;
       destruct (calc_speed_ints (clock r) T1 (bytes_sent n) (bytes_sent p) Hnz)
         as (q1 & E1 & Q1);
       destruct (calc_speed_ints (clock r) T1 (bytes_recv n) (bytes_recv p) Hnz)
         as (q2 & E2 & Q2);
       rewrite E1, E2 in Hn; cbn [bind] in Hn; injection Hn as <-;
       cbn; eauto.
  3,4: unfold disk_part in Hd; rewrite En, Ht, Ep, Hnz in Hd;
       destruct (calc_speed_ints (clock r) T1 (read_bytes n) (read_bytes p) Hnz)
         as (q1 & E1 & Q1);
       destruct (calc_speed_ints (clock r) T1 (write_bytes n) (write_bytes p) Hnz)
         as (q2 & E2 & Q2);
       rewrite E1, E2 in Hd; cbn [bind] in Hd; injection Hd as <-;
       cbn; eauto.
  all: rewrite Hnic, En; cbn [mbind option_bind]; unfold nic_entry;
       rewrite prev_counters_lookup, Ep, Ht, Hnz;
       destruct (calc_speed_ints (clock r) T1 (bytes_sent n) (bytes_sent p) Hnz)
         as (q1 & E1 & Q1);
       destruct (calc_speed_ints (clock r) T1 (bytes_recv n) (bytes_recv p) Hnz)
         as (q2 & E2 & Q2);
       rewrite E1, E2; cbn; eauto.
Qed.

Lemma reported_some (s : snapshot) (r : reading) sp s' (c : counter) (C : Z) :
  get_io_and_net_speeds s r = Ok (sp, s') ->
  read_counter c r = Some C ->
  exists v, reported_rate c sp = Some v.
Proof.
  intros H Hc. pose proof (poll_per_nic _ _ _ _ H) as Hnic.
  unfold read_counter in Hc.
  destruct c as [| |nic|nic| |]; cbn [reported_rate counter_value] in *; eauto.
  all: apply fmap_Some_inv in Hc as (n & En & _); rewrite Hnic, En;
       cbn [mbind option_bind];
       destruct (nic_entry_total (clock r) (time s) (net_pernic s) nic n)
         as (e & -> & _); cbn; eauto.
Qed.

(** ** Rates across consecutive polls *)

(** C1 (as stated) fails below the floor: two successful polls one float
    step apart, counter going from 1000 to 1500, report [500 / 1e-6], which
    is not [(C2 - C1) / (T2 - T1)]. *)
Lemma rate_exact_fails_below_floor :
  clock tick_1 < clock tick_2
  /\ read_counter NetSent tick_1 = Some 1000%Z
  /\ read_counter NetSent tick_2 = Some 1500%Z
  /\ exists sp1 sp2 q,
       get_io_and_net_speeds _prev_snapshot tick_1 = Ok (sp1, stored tick_1)
       /\ get_io_and_net_speeds (stored tick_1) tick_2 = Ok (sp2, stored tick_2)
       /\ reported_rate NetSent sp2 = Some (VFloat q)
       /\ q == 500 / eps
       /\ ~ q == inject_Z (1500 - 1000) / (clock tick_2 - clock tick_1).
Proof.
  split; [reflexivity|]. split; [reflexivity|]. split; [reflexivity|].
  destruct (poll_total _prev_snapshot tick_1) as [sp1 H1].
  destruct (poll_total (stored tick_1) tick_2) as [sp2 H2].
  exists sp1, sp2. apply poll_sections in H2 as H2'. destruct H2' as (_ & Hn & _).
  assert (E : net_part (clock tick_2) (time (stored tick_1)) (net (stored tick_1))
                (cur_net tick_2)
              = Ok {| bytes_sent_per_sec := VFloat (500 / eps);
                      bytes_recv_per_sec := VFloat (600 / eps) |})
    by (vm_compute; reflexivity).
  rewrite E in Hn. injection Hn as Hn.
  eexists. split; [exact H1|]. split; [exact H2|].
  cbn [reported_rate]. rewrite <- Hn. cbn [bytes_sent_per_sec].
  split; [reflexivity|]. split; [reflexivity|].
  intros Heq. vm_compute in Heq. discriminate Heq.
Qed.

(** The zero-counter case: a counter that read 0 at the previous poll is
    reported with rate 0 whatever it reads now. *)
Lemma rate_after_zero_counter :
  read_counter (NicSent "eth0") idle_1 = Some 0%Z
  /\ read_counter (NicSent "eth0") idle_2 = Some 500%Z
  /\ exists sp2 q,
       get_io_and_net_speeds (stored idle_1) idle_2 = Ok (sp2, stored idle_2)
       /\ reported_rate (NicSent "eth0") sp2 = Some (VFloat q)
       /\ q == 0.
Proof.
  split; [reflexivity|]. split; [reflexivity|].
  destruct (rate_warm (stored idle_1) idle_2 (NicSent "eth0") 10 0 500)
    as (sp & q & H & Hr & Hq); try reflexivity.
  exists sp, q. split; [exact H|]. split; [exact Hr|]. rewrite Hq. reflexivity.
Qed.

(** C1 (amended): two consecutive polls at least [eps] apart, the first
    with a non-zero timestamp; a counter read by both, non-zero at the
    first and not decreasing.  The second poll reports exactly
    [(C2 - C1) / (T2 - T1)] for it. *)
Theorem rate_exact_above_floor
    (s0 : snapshot) (r1 r2 : reading) (c : counter) (C1 C2 : Z) :
  ~ clock r1 == 0 ->
  eps <= clock r2 - clock r1 ->
  read_counter c r1 = Some C1 ->
  read_counter c r2 = Some C2 ->
  (0 < C1 <= C2)%Z ->
  exists sp1 sp2 q,
    get_io_and_net_speeds s0 r1 = Ok (sp1, stored r1)
    /\ get_io_and_net_speeds (stored r1) r2 = Ok (sp2, stored r2)
    /\ reported_rate c sp2 = Some (VFloat q)
    /\ q == inject_Z (C2 - C1) / (clock r2 - clock r1).
Proof.
  intros Ht Hdt H1 H2 HC.
  destruct (poll_total s0 r1) as [sp1 E1].
  destruct (rate_warm (stored r1) r2 c (clock r1) C1 C2) as (sp2 & q & E2 & Hr & Hq).
  - reflexivity.
  - by apply Qnonzero_true.
  - by rewrite stored_counter.
  - assumption.
  - exists sp1, sp2, q. split; [exact E1|]. split; [exact E2|]. split; [exact Hr|].
    rewrite Hq. unfold or_int.
    destruct (Z.eqb_spec C1 0) as [->|_]; [lia|].
    rewrite (Q.max_l _ _ Hdt). reflexivity.
Qed.

Lemma rate_exact_above_floor_witness :
  exists sp1 sp2 q,
    get_io_and_net_speeds _prev_snapshot sample_a = Ok (sp1, stored sample_a)
    /\ get_io_and_net_speeds (stored sample_a) sample_b = Ok (sp2, stored sample_b)
    /\ reported_rate (NicSent "eth0") sp2 = Some (VFloat q)
    /\ q == inject_Z (300 - 100) / (clock sample_b - clock sample_a).
Proof.
  apply (rate_exact_above_floor _prev_snapshot sample_a sample_b (NicSent "eth0") 100 300).
  - intros E. vm_compute in E. discriminate E.
  - vm_compute. intros E. discriminate E.
  - reflexivity.
  - reflexivity.
  - lia.
Defined.

(** C2: on a poll that finds no stored timestamp, every rate the result
    reports (aggregate network, each interface, disk) is the literal [0.0],
    whatever the counters read, and afterwards the store holds the current
    timestamp and the counters just read. *)
Theorem cold_start_all_zero (s : snapshot) (r : reading) :
  time s = None ->
  exists sp s',
    get_io_and_net_speeds s r = Ok (sp, s')
    /\ (forall c v, reported_rate c sp = Some v -> v = VFloat 0)
    /\ (forall nic e, sp_per_nic sp !! nic = Some e ->
          nic_bytes_sent_per_sec e = VFloat 0 /\ nic_bytes_recv_per_sec e = VFloat 0)
    /\ time s' = Some (clock r)
    /\ net s' = cur_net r
    /\ net_pernic s' = Some (cur_pernic r)
    /\ disk_io s' = cur_disk r
    /\ (forall c, prev_counter c s' = read_counter c r).
Proof.
  intros Hs. destruct (poll_total s r) as [sp H].
  exists sp, (stored r). split; [exact H|].
  assert (Hz : forall c v, reported_rate c sp = Some v -> v = VFloat 0).
  { intros c v. apply (rate_zero s r sp (stored r) c H). by left. }
  split; [exact Hz|]. split.
  - intros nic e He. split.
    + apply (Hz (NicSent nic)). cbn [reported_rate]. by rewrite He.
    + apply (Hz (NicRecv nic)). cbn [reported_rate]. by rewrite He.
  - repeat split.
Qed.

Lemma cold_start_all_zero_witness :
  exists sp s',
    get_io_and_net_speeds _prev_snapshot sample_b = Ok (sp, s')
    /\ (forall c v, reported_rate c sp = Some v -> v = VFloat 0)
    /\ (forall nic e, sp_per_nic sp !! nic = Some e ->
          nic_bytes_sent_per_sec e = VFloat 0 /\ nic_bytes_recv_per_sec e = VFloat 0)
    /\ time s' = Some (clock sample_b)
    /\ net s' = cur_net sample_b
    /\ net_pernic s' = Some (cur_pernic sample_b)
    /\ disk_io s' = cur_disk sample_b
    /\ (forall c, prev_counter c s' = read_counter c sample_b).
Proof.
  apply (cold_start_all_zero _prev_snapshot sample_b). reflexivity.
Defined.

(** C3: whatever the store holds, the per-interface result has exactly the
    keys of the current per-interface dict.  An interface of the current dict
    that the stored dict lacks is reported with both rates [0.0] and with the
    current packet counts; an interface that only the stored dict has is not
    in the result. *)
Theorem per_nic_keys_follow_current (s : snapshot) (r : reading) :
  exists sp,
    get_io_and_net_speeds s r = Ok (sp, stored r)
    /\ dom (sp_per_nic sp) = dom (cur_pernic r)
    /\ (forall nic c,
          cur_pernic r !! nic = Some c ->
          default ∅ (net_pernic s) !! nic = None ->
          sp_per_nic sp !! nic
          = Some {| nic_bytes_sent_per_sec := VFloat 0;
                    nic_bytes_recv_per_sec := VFloat 0;
                    nic_packets_sent := packets_sent c;
                    nic_packets_recv := packets_recv c |})
    /\ (forall nic,
          is_Some (default ∅ (net_pernic s) !! nic) ->
          cur_pernic r !! nic = None ->
          sp_per_nic sp !! nic = None).
Proof.
  destruct (poll_total s r) as [sp H]. exists sp. split; [exact H|].
  pose proof (poll_per_nic _ _ _ _ H) as Hnic. split; [|split].
  - apply set_eq. intros k. rewrite !elem_of_dom, Hnic.
    destruct (cur_pernic r !! k) as [c|] eqn:E; cbn [mbind option_bind].
    + destruct (nic_entry_total (clock r) (time s) (net_pernic s) k c) as (e & -> & _).
      cbn [to_option]. split; eauto.
    + split; intros [? ?]; discriminate.
  - intros nic c Ec Hp. rewrite Hnic, Ec. cbn [mbind option_bind].
    unfold nic_entry. rewrite prev_counters_lookup, Hp.
    destruct (time s); reflexivity.
  - intros nic _ Ec. rewrite Hnic, Ec. reflexivity.
Qed.

(** C10: in every per-interface entry of a result the packet counts are
    those of the current counters for the same interface ([None] when the
    current counters lack them), whatever the store held, the empty store of
    the first poll included. *)
Theorem packets_from_current (s : snapshot) (r : reading) :
  exists sp,
    get_io_and_net_speeds s r = Ok (sp, stored r)
    /\ (forall nic e,
          sp_per_nic sp !! nic = Some e ->
          exists c, cur_pernic r !! nic = Some c
                    /\ nic_packets_sent e = packets_sent c
                    /\ nic_packets_recv e = packets_recv c)
    /\ (forall s0 sp0 st0 nic,
          get_io_and_net_speeds s0 r = Ok (sp0, st0) ->
          nic_packets_sent <$> sp_per_nic sp0 !! nic
          = nic_packets_sent <$> sp_per_nic sp !! nic
          /\ nic_packets_recv <$> sp_per_nic sp0 !! nic
             = nic_packets_recv <$> sp_per_nic sp !! nic).
Proof.
  destruct (poll_total s r) as [sp H]. exists sp. split; [exact H|].
  pose proof (poll_per_nic _ _ _ _ H) as Hnic. split.
  - intros nic e He. rewrite Hnic in He.
    destruct (cur_pernic r !! nic) as [c|]; [|discriminate].
    cbn [mbind option_bind] in He.
    destruct (nic_entry_total (clock r) (time s) (net_pernic s) nic c)
      as (e' & Ee & Hs & Hr).
    rewrite Ee in He. injection He as <-. eauto.
  - intros s0 sp0 st0 nic H0.
    rewrite Hnic, (poll_per_nic _ _ _ _ H0).
    destruct (cur_pernic r !! nic) as [c|]; [|split; reflexivity].
    cbn [mbind option_bind].
    destruct (nic_entry_total (clock r) (time s) (net_pernic s) nic c)
      as (e & -> & Hs & Hr).
    destruct (nic_entry_total (clock r) (time s0) (net_pernic s0) nic c)
      as (e0 & -> & Hs0 & Hr0).
    cbn. split; congruence.
Qed.

Lemma rate_over_missing (dt : Q) (v : value) :
  0 < dt ->
  rate_over (VFloat dt) VNone v = Ok (VFloat 0)
  /\ exists q, rate_over (VFloat dt) v VNone = Ok (VFloat q) /\ q == 0.
Proof.
  intros Hdt. split.
  - unfold rate_over, py_or. destruct (truthy v); reflexivity.
  - unfold rate_over, py_or. cbn [truthy].
    destruct v as [|z|x|t]; cbn [py_sub bind try_except].
    + eexists; split; reflexivity.
    + unfold py_truediv. cbn [num_of]. rewrite (Qeq_bool_pos _ Hdt). cbn [try_except].
      eexists; split; [reflexivity|]. rewrite Z.sub_diag.
      unfold Qdiv. apply Qmult_0_l.
    + unfold py_truediv. cbn [num_of]. rewrite (Qeq_bool_pos _ Hdt). cbn [try_except].
      eexists; split; [reflexivity|]. field. lra.
    + eexists; split; reflexivity.
Qed.

(** C4: [_calc_speed] returns a float for every timestamp and every pair of
    counter values, numbers or not.  Its divisor [dt] is at least the
    strictly positive [eps], and is [eps] itself when the elapsed time is zero
    or negative (or there is no previous timestamp); the result is the guarded
    division by that [dt], which on integers is the difference quotient.  A
    missing ([None]) counter value on either side gives rate zero. *)
Theorem calc_speed_never_raises
    (now : Q) (prev : option Q) (now_val prev_val : value) :
  exists dt q,
    calc_dt (VFloat now) (time_value prev) = Ok (VFloat dt)
    /\ 0 < eps /\ eps <= dt
    /\ (match prev with Some pt => now - pt <= 0 | None => True end -> dt = eps)
    /\ _calc_speed (VFloat now) (time_value prev) now_val prev_val = Ok (VFloat q)
    /\ rate_over (VFloat dt) now_val prev_val = Ok (VFloat q)
    /\ (forall a b, now_val = VInt a -> prev_val = VInt b ->
          q == inject_Z (a - or_int b a) / dt)
    /\ (now_val = VNone \/ prev_val = VNone -> q == 0).
Proof.
  destruct (calc_dt_floor now prev) as (dt & Edt & Hdt).
  assert (Hpos : 0 < dt) by (pose proof eps_pos; lra).
  destruct (rate_over_total dt now_val prev_val Hpos) as [q Eq].
  exists dt, q. split; [exact Edt|]. split; [exact eps_pos|]. split; [exact Hdt|].
  split; [|split; [|split; [exact Eq|split]]].
  - intros Hle. destruct prev as [pt|]; cbn [time_value] in Edt.
    + rewrite (calc_dt_nonpositive now pt Hle) in Edt. by injection Edt as <-.
    + unfold calc_dt, py_or in Edt. cbn [truthy py_sub bind py_max py_gt num_of] in Edt.
      destruct (Qle_bool eps (now - now)) eqn:E.
      * apply Qle_bool_iff in E. pose proof eps_pos. lra.
      * cbn in Edt. by injection Edt as <-.
  - unfold _calc_speed. rewrite Edt. exact Eq.
  - intros a b -> ->. rewrite (rate_over_ints dt a b Hpos) in Eq.
    injection Eq as <-. reflexivity.
  - intros [-> | ->].
    + destruct (rate_over_missing dt prev_val Hpos) as [E0 _].
      rewrite E0 in Eq. injection Eq as <-. reflexivity.
    + destruct (rate_over_missing dt now_val Hpos) as (_ & q0 & E0 & H0).
      rewrite E0 in Eq. injection Eq as <-. exact H0.
Qed.

(** Two polls at the same instant, previous counter missing. *)
Lemma calc_speed_never_raises_witness :
  exists dt q,
    dt = eps
    /\ _calc_speed (VFloat 5) (VFloat 5) (VInt 10) VNone = Ok (VFloat q)
    /\ q == 0.
Proof.
  destruct (calc_speed_never_raises 5 (Some 5) (VInt 10) VNone)
    as (dt & q & _ & _ & _ & Hfloor & Hq & _ & _ & Hzero).
  exists dt, q. split; [|split].
  - apply Hfloor. vm_compute. intros E. discriminate E.
  - exact Hq.
  - apply Hzero. by right.
Defined.

(** C5: with a stored sample (truthy timestamp [T1], stored value [C1]) and
    a current value [C2] strictly below [C1], the reported rate is the raw
    quotient [(C2 - C1) / max (T2 - T1) eps], a negative number. *)
Theorem decrease_reported_negative
    (s : snapshot) (r : reading) (c : counter) (T1 : Q) (C1 C2 : Z) :
  time s = Some T1 ->
  ~ T1 == 0 ->
  prev_counter c s = Some C1 ->
  read_counter c r = Some C2 ->
  (0 <= C2 < C1)%Z ->
  exists sp q,
    get_io_and_net_speeds s r = Ok (sp, stored r)
    /\ reported_rate c sp = Some (VFloat q)
    /\ q == inject_Z (C2 - C1) / Qmax (clock r - T1) eps
    /\ q < 0.
Proof.
  intros Ht Hnz Hp Hc HC.
  destruct (rate_warm s r c T1 C1 C2 Ht (proj2 (Qnonzero_true T1) Hnz) Hp Hc)
    as (sp & q & H & Hr & Hq).
  exists sp, q. split; [exact H|]. split; [exact Hr|].
  assert (E : or_int C1 C2 = C1).
  { unfold or_int. destruct (Z.eqb_spec C1 0); [lia|reflexivity]. }
  rewrite E in Hq. split; [exact Hq|].
  rewrite Hq.
  assert (Hd : 0 < Qmax (clock r - T1) eps).
  { pose proof (Q.le_max_r (clock r - T1) eps). pose proof eps_pos. lra. }
  assert (Hn : inject_Z (C2 - C1) < 0).
  { change 0 with (inject_Z 0). rewrite <- Zlt_Qlt. lia. }
  unfold Qdiv. apply Qinv_lt_0_compat in Hd.
  pose proof (Qmult_lt_compat_r _ _ _ Hd Hn) as G.
  rewrite Qmult_0_l in G. exact G.
Qed.

Lemma decrease_reported_negative_witness :
  exists sp q,
    get_io_and_net_speeds (stored sample_b) sample_a = Ok (sp, stored sample_a)
    /\ reported_rate NetSent sp = Some (VFloat q)
    /\ q == inject_Z (1000 - 1500) / Qmax (clock sample_a - 11) eps
    /\ q < 0.
Proof.
  apply (decrease_reported_negative (stored sample_b) sample_a NetSent 11 1500 1000).
  - reflexivity.
  - intros E. vm_compute in E. discriminate E.
  - reflexivity.
  - reflexivity.
  - lia.
Defined.

(** C7 (as stated) fails: after a poll whose network read raised, the next
    poll reads the counter successfully and still reports [0.0], although the
    counter moved from 1000 to 2000 since the last good sample; the rate is
    not the quotient over either earlier poll. *)
Lemma recovery_poll_reports_zero :
  read_counter NetSent sample_a = Some 1000%Z
  /\ read_counter NetSent outage = None
  /\ read_counter NetSent recovered = Some 2000%Z
  /\ exists sp_k sp_k1,
       get_io_and_net_speeds (stored sample_a) outage = Ok (sp_k, stored outage)
       /\ get_io_and_net_speeds (stored outage) recovered = Ok (sp_k1, stored recovered)
       /\ reported_rate NetSent sp_k = Some (VFloat 0)
       /\ reported_rate NetSent sp_k1 = Some (VFloat 0)
       /\ ~ 0 == inject_Z (2000 - 1000) / (clock recovered - clock sample_a)
       /\ ~ 0 == inject_Z (2000 - 1000) / (clock recovered - clock outage).
Proof.
  split; [reflexivity|]. split; [reflexivity|]. split; [reflexivity|].
  destruct (poll_total (stored sample_a) outage) as [sp_k Hk].
  destruct (poll_total (stored outage) recovered) as [sp_k1 Hk1].
  exists sp_k, sp_k1. split; [exact Hk|]. split; [exact Hk1|].
  split; [|split; [|split]].
  - destruct (reported_rate NetSent sp_k) as [v|] eqn:E; [|discriminate E].
    f_equal. apply (rate_zero _ _ _ _ NetSent Hk); [|exact E]. right; right. reflexivity.
  - destruct (reported_rate NetSent sp_k1) as [v|] eqn:E; [|discriminate E].
    f_equal. apply (rate_zero _ _ _ _ NetSent Hk1); [|exact E]. right; left. reflexivity.
  - intros E. vm_compute in E. discriminate E.
  - intros E. vm_compute in E. discriminate E.
Qed.

(** C7 (amended): when a counter is not read at poll k, poll k reports it
    as zero or not at all, poll k+1 (read succeeds) reports the literal
    [0.0] for it, and poll k+2 (read succeeds, the value read at k+1 being
    non-zero) reports the quotient over samples k+1 and k+2. *)
Theorem failure_heals_after_two_polls
    (s : snapshot) (rk rk1 rk2 : reading) (c : counter) (C1 C2 : Z) :
  read_counter c rk = None ->
  read_counter c rk1 = Some C1 ->
  read_counter c rk2 = Some C2 ->
  ~ clock rk1 == 0 ->
  C1 <> 0%Z ->
  exists sp_k sp_k1 sp_k2 q,
    get_io_and_net_speeds s rk = Ok (sp_k, stored rk)
    /\ get_io_and_net_speeds (stored rk) rk1 = Ok (sp_k1, stored rk1)
    /\ get_io_and_net_speeds (stored rk1) rk2 = Ok (sp_k2, stored rk2)
    /\ (forall v, reported_rate c sp_k = Some v -> v = VFloat 0)
    /\ reported_rate c sp_k1 = Some (VFloat 0)
    /\ reported_rate c sp_k2 = Some (VFloat q)
    /\ q == inject_Z (C2 - C1) / Qmax (clock rk2 - clock rk1) eps.
Proof.
  intros Hk Hk1 Hk2 Ht HC.
  destruct (poll_total s rk) as [sp_k Ek].
  destruct (poll_total (stored rk) rk1) as [sp_k1 Ek1].
  destruct (rate_warm (stored rk1) rk2 c (clock rk1) C1 C2) as (sp_k2 & q & Ek2 & Hr & Hq).
  { reflexivity. }
  { by apply Qnonzero_true. }
  { by rewrite stored_counter. }
  { assumption. }
  exists sp_k, sp_k1, sp_k2, q.
  split; [exact Ek|]. split; [exact Ek1|]. split; [exact Ek2|].
  split; [|split; [|split; [exact Hr|]]].
  - apply (rate_zero _ _ _ _ c Ek). right; right. exact Hk.
  - destruct (reported_some _ _ _ _ c C1 Ek1 Hk1) as [v Hv].
    rewrite Hv. f_equal. apply (rate_zero _ _ _ _ c Ek1); [|exact Hv].
    right; left. by rewrite stored_counter.
  - rewrite Hq. unfold or_int. destruct (Z.eqb_spec C1 0); [contradiction|reflexivity].
Qed.

Lemma failure_heals_after_two_polls_witness :
  exists sp_k sp_k1 sp_k2 q,
    get_io_and_net_speeds (stored sample_a) outage = Ok (sp_k, stored outage)
    /\ get_io_and_net_speeds (stored outage) recovered = Ok (sp_k1, stored recovered)
    /\ get_io_and_net_speeds (stored recovered) steady = Ok (sp_k2, stored steady)
    /\ (forall v, reported_rate NetSent sp_k = Some v -> v = VFloat 0)
    /\ reported_rate NetSent sp_k1 = Some (VFloat 0)
    /\ reported_rate NetSent sp_k2 = Some (VFloat q)
    /\ q == inject_Z (2600 - 2000) / Qmax (clock steady - clock recovered) eps.
Proof.
  apply (failure_heals_after_two_polls (stored sample_a) outage recovered steady
           NetSent 2000 2600).
  - reflexivity.
  - reflexivity.
  - reflexivity.
  - intros E. vm_compute in E. discriminate E.
  - discriminate.
Defined.

(** ** Pollers under a scheduler *)

Lemma snapshot_eta (g : snapshot) :
  {| time := time g; net := net g; net_pernic := net_pernic g; disk_io := disk_io g |} = g.
Proof. by destruct g. Qed.

Lemma run_app (a b : list nat) st : run (a ++ b) st = run b (run a st).
Proof. unfold run. apply foldl_app. Qed.

Lemma sched_step_middle (g : snapshot) (pre post : list poller) (p : poller) :
  sched_step (g, pre ++ p :: post) (length pre)
  = (fst (step g p), pre ++ snd (step g p) :: post).
Proof.
  unfold sched_step. cbn [fst snd].
  rewrite list_lookup_middle by reflexivity.
  by rewrite insert_app_r_alt, Nat.sub_diag.
Qed.

(** An undisturbed poller sees the store as it is and replaces it with its
    own sample. *)
Lemma run_solo (g : snapshot) (pre post : list poller) (r : reading) :
  run (solo (length pre)) (g, pre ++ start r :: post)
  = (stored r, pre ++ finished g r :: post).
Proof.
  unfold run, solo. cbn [replicate foldl].
  rewrite !sched_step_middle. reflexivity.
Qed.

Lemma run_serial (rs : list reading) : forall (g : snapshot) (pre : list poller),
  run (serial_from (length pre) (length rs)) (g, pre ++ (start <$> rs))
  = (store_after g rs, pre ++ serial_pollers g rs).
Proof.
  induction rs as [|r rs IH]; intros g pre; [reflexivity|].
  cbn [length serial_from fmap list_fmap serial_pollers]. rewrite run_app, run_solo.
  replace (pre ++ finished g r :: (start <$> rs))
    with ((pre ++ [finished g r]) ++ (start <$> rs)) by (by rewrite <- app_assoc).
  replace (S (length pre)) with (length (pre ++ [finished g r]))
    by (rewrite length_app; cbn; lia).
  rewrite IH. by rewrite <- app_assoc.
Qed.

Lemma serial_pollers_lookup (rs : list reading) : forall (g : snapshot) (i : nat) (p : poller),
  serial_pollers g rs !! i = Some p ->
  at_pc p = Finished
  /\ observed p = store_after g (take i rs)
  /\ rs !! i = Some (sample p).
Proof.
  induction rs as [|r rs IH]; intros g i p Hp; [discriminate|].
  destruct i as [|i]; cbn in Hp.
  - injection Hp as <-. cbn. split; [reflexivity|]. split; [apply snapshot_eta|reflexivity].
  - apply IH in Hp as (H1 & H2 & H3). cbn [take]. auto.
Qed.

Lemma serial_pollers_length (rs : list reading) : forall g,
  length (serial_pollers g rs) = length rs.
Proof. induction rs as [|r rs IH]; intros g; cbn; [reflexivity|by rewrite IH]. Qed.

(** The store after a serial run is the initial store or one poll's whole
    sample. *)
Lemma store_after_whole (g : snapshot) (rs : list reading) :
  store_after g rs = g \/ exists r, r ∈ rs /\ store_after g rs = stored r.
Proof.
  destruct rs as [|r rs _] using rev_ind; [by left|].
  right. exists r. split.
  - apply elem_of_app. right. by apply list_elem_of_singleton.
  - unfold store_after. by rewrite foldl_snoc.
Qed.

(** C6 (as stated) fails: the store has no lock.  In this schedule the
    first poller has stored only its timestamp when the second poller loads
    the store: the second sees the timestamp of one sample with the counters
    of another, a state no single sample ever was, and reports the rate
    [(2600 - 1000) / (13 - 12)]. *)
Lemma interleaved_poll_sees_mixed_sample :
  exists p sp q,
    snd torn_run !! 1%nat = Some p
    /\ at_pc p = StoreTime
    /\ sample p = steady
    /\ time (observed p) = time (stored recovered)
    /\ net (observed p) = net (stored sample_a)
    /\ observed p <> stored sample_a
    /\ observed p <> stored recovered
    /\ observed p <> stored steady
    /\ poller_result p = Ok sp
    /\ reported_rate NetSent sp = Some (VFloat q)
    /\ q == inject_Z (2600 - 1000) / (13 - 12).
Proof.
  eexists. 
  destruct (poll_total
              {| time := time (stored recovered); net := net (stored sample_a);
                 net_pernic := net_pernic (stored sample_a);
                 disk_io := disk_io (stored sample_a) |} steady) as [sp Hsp].
  destruct (rate_warm
              {| time := time (stored recovered); net := net (stored sample_a);
                 net_pernic := net_pernic (stored sample_a);
                 disk_io := disk_io (stored sample_a) |} steady NetSent 12 1000 2600)
    as (sp' & q & Hsp' & Hr & Hq); try reflexivity.
  rewrite Hsp in Hsp'. injection Hsp' as <-.
  exists sp, q.
  split; [reflexivity|]. split; [reflexivity|]. split; [reflexivity|].
  split; [reflexivity|]. split; [reflexivity|].
  split; [intros E; apply (f_equal time) in E; vm_compute in E; discriminate E|].
  split; [intros E; apply (f_equal net) in E; vm_compute in E; discriminate E|].
  split; [intros E; apply (f_equal time) in E; vm_compute in E; discriminate E|].
  split.
  - unfold poller_result.
    change (observed _) with
      {| time := time (stored recovered); net := net (stored sample_a);
         net_pernic := net_pernic (stored sample_a);
         disk_io := disk_io (stored sample_a) |}.
    change (sample _) with steady. rewrite Hsp. reflexivity.
  - split; [exact Hr|]. rewrite Hq. reflexivity.
Qed.

(** C6 (amended): when the polls run one after the other, each from its
    first load to its last store, every poll finishes having observed exactly
    the store its predecessor left: the initial store or the whole sample of
    one earlier poll, never a mixture; its result is that of
    [get_io_and_net_speeds] on that store, and the store ends as the last
    poll's sample. *)
Theorem serial_polls_see_whole_samples (g0 : snapshot) (rs : list reading) :
  exists ps,
    run (serial_from 0 (length rs)) (g0, start <$> rs) = (store_after g0 rs, ps)
    /\ length ps = length rs
    /\ forall i p,
         ps !! i = Some p ->
         at_pc p = Finished
         /\ rs !! i = Some (sample p)
         /\ observed p = store_after g0 (take i rs)
         /\ (observed p = g0 \/ exists r, r ∈ rs /\ observed p = stored r)
         /\ poller_result p
            = let* x := get_io_and_net_speeds (store_after g0 (take i rs)) (sample p) in
              Ok (fst x).
Proof.
  exists (serial_pollers g0 rs). split; [|split].
  - apply (run_serial rs g0 []).
  - apply serial_pollers_length.
  - intros i p Hp. apply serial_pollers_lookup in Hp as (H1 & H2 & H3).
    split; [exact H1|]. split; [exact H3|]. split; [exact H2|]. split.
    + rewrite H2. destruct (store_after_whole g0 (take i rs)) as [E|(r & Hr & E)].
      * by left.
      * right. exists r. split; [|exact E]. by apply (subseteq_take i rs).
    + unfold poller_result. by rewrite H2.
Qed.

(** ** CPU sampling *)

Example sample_cpu_measured :
  to_option (sample_cpu (Returned [0; 25 # 2; 0; 5]) (Some 4%nat) (const_rng 7))
  = (fun x => (x, const_rng 7))
      <$> Some ([VFloat 0; VFloat (25 # 2); VFloat 0; VFloat 5], round1 (35 # 8)).
Proof. reflexivity. Qed.

Example round1_example : round1 (35 # 8) == 44 # 10.
Proof. reflexivity. Qed.

Example sample_cpu_all_zero :
  (fun x => fst x) <$> to_option (sample_cpu (Returned [0; 0]) (Some 2%nat) (const_rng 7))
  = Some ([VInt 8; VInt 8], round1 8).
Proof. reflexivity. Qed.

Example sample_cpu_raised_unknown_cores :
  (fun x => fst x) <$> to_option (sample_cpu Failed None (const_rng 4))
  = Some ([VInt 10], round1 10).
Proof. reflexivity. Qed.

Lemma randints_length (n : nat) (lo hi : Z) : forall g,
  length (fst (randints n lo hi g)) = n.
Proof. induction n as [|n IH]; intros g; cbn; [reflexivity|by rewrite IH]. Qed.

Lemma randints_range (n : nat) (lo hi : Z) : (lo <= hi)%Z -> forall g,
  Forall (fun z => (lo <= z <= hi)%Z) (fst (randints n lo hi g)).
Proof.
  intros Hle. induction n as [|n IH]; intros g; cbn; constructor.
  - pose proof (Z.mod_pos_bound (g O) (hi - lo + 1)). lia.
  - apply IH.
Qed.

Lemma py_sum_ints_bounds (zs : list Z) (a b : Z) :
  Forall (fun z => (a <= z <= b)%Z) zs ->
  inject_Z a * inject_Z (Z.of_nat (length zs)) <= py_sum (VInt <$> zs)
  /\ py_sum (VInt <$> zs) <= inject_Z b * inject_Z (Z.of_nat (length zs)).
Proof.
  induction 1 as [|z zs [Hz1 Hz2] _ [IH1 IH2]].
  - cbn. split; ring_simplify; apply Qle_refl.
  - cbn [length fmap list_fmap py_sum foldr]. fold (py_sum (VInt <$> zs)).
    rewrite Nat2Z.inj_succ, <- Z.add_1_r, inject_Z_plus.
    unfold as_Q. cbn [num_of default from_option id].
    rewrite Zle_Qle in Hz1, Hz2. change (list_fmap Z value VInt zs) with (VInt <$> zs).
    change (inject_Z 1) with 1. split; nra.
Qed.

Lemma mean_ints_bounds (zs : list Z) (a b : Z) :
  zs <> [] ->
  Forall (fun z => (a <= z <= b)%Z) zs ->
  exists m, mean (VInt <$> zs) = Ok m /\ inject_Z a <= m <= inject_Z b.
Proof.
  intros Hne Hall. destruct (py_sum_ints_bounds zs a b Hall) as [H1 H2].
  destruct zs as [|z zs]; [contradiction|].
  eexists. split; [reflexivity|].
  rewrite length_fmap.
  assert (Hn : 0 < inject_Z (Z.of_nat (length (z :: zs)))).
  { change 0 with (inject_Z 0). rewrite <- Zlt_Qlt. cbn [length]. lia. }
  split.
  - apply Qle_shift_div_l; assumption.
  - apply Qle_shift_div_r; assumption.
Qed.

Lemma round_half_even_bounds (q : Q) (a b : Z) :
  inject_Z a <= q <= inject_Z b -> (a <= round_half_even q <= b)%Z.
Proof.
  intros [Ha Hb]. unfold round_half_even.
  pose proof (Qfloor_le q) as Hf. pose proof (Qlt_floor q) as Hc.
  set (f := Qfloor q) in *.
  rewrite inject_Z_plus in Hc. change (inject_Z 1) with 1 in Hc.
  assert (Hfa : (a <= f)%Z).
  { cut (a < f + 1)%Z; [lia|].
    rewrite Zlt_Qlt, inject_Z_plus. change (inject_Z 1) with 1. lra. }
  assert (Hfb : (f <= b)%Z) by (rewrite Zle_Qle; lra).
  assert (Hup : 0 < q - inject_Z f -> (f + 1 <= b)%Z).
  { intros Hr. cut (f < b)%Z; [lia|]. rewrite Zlt_Qlt. lra. }
  destruct (Qle_bool (q - inject_Z f) (1 # 2)) eqn:E1.
  - destruct (Qeq_bool (q - inject_Z f) (1 # 2)) eqn:E2; [|lia].
    apply Qeq_bool_iff in E2. destruct (Z.even f); [lia|].
    split; [lia|]. apply Hup. lra.
  - split; [lia|]. apply Hup.
    destruct (Qlt_le_dec (1 # 2) (q - inject_Z f)) as [L|L]; [lra|].
    apply Qle_bool_iff in L. congruence.
Qed.

Lemma round1_bounds (q : Q) (a b : Z) :
  inject_Z a <= q <= inject_Z b -> inject_Z a <= round1 q <= inject_Z b.
Proof.
  intros [Ha Hb]. unfold round1.
  destruct (round_half_even_bounds (q * 10) (a * 10) (b * 10)) as [H1 H2].
  { rewrite !inject_Z_mult. change (inject_Z 10) with 10. split; lra. }
  rewrite Zle_Qle, inject_Z_mult in H1, H2.
  change (inject_Z 10) with 10 in H1, H2.
  split.
  - apply Qle_shift_div_l; [reflexivity|exact H1].
  - apply Qle_shift_div_r; [reflexivity|exact H2].
Qed.

(** Rounding moves a value by at most one half. *)
Lemma round_half_even_near (q : Q) :
  - (1 # 2) <= inject_Z (round_half_even q) - q <= 1 # 2.
Proof.
  unfold round_half_even.
  pose proof (Qfloor_le q) as Hf. pose proof (Qlt_floor q) as Hc.
  set (f := Qfloor q) in *.
  rewrite inject_Z_plus in Hc. change (inject_Z 1) with 1 in Hc.
  destruct (Qle_bool (q - inject_Z f) (1 # 2)) eqn:E1.
  - apply Qle_bool_iff in E1.
    destruct (Qeq_bool (q - inject_Z f) (1 # 2)) eqn:E2.
    + apply Qeq_bool_iff in E2. destruct (Z.even f).
      * split; lra.
      * rewrite inject_Z_plus. change (inject_Z 1) with 1. split; lra.
    + split; lra.
  - assert (L : 1 # 2 < q - inject_Z f).
    { destruct (Qlt_le_dec (1 # 2) (q - inject_Z f)) as [L|L]; [exact L|].
      apply Qle_bool_iff in L. congruence. }
    rewrite inject_Z_plus. change (inject_Z 1) with 1. split; lra.
Qed.

(** [round1] gives a one-decimal value within [1/20] of its argument. *)
Lemma round1_near (q : Q) :
  (exists k : Z, round1 q == inject_Z k / 10)
  /\ - (1 # 20) <= round1 q - q <= 1 # 20.
Proof.
  split; [exists (round_half_even (q * 10)); reflexivity|].
  pose proof (round_half_even_near (q * 10)) as [H1 H2].
  unfold round1. set (k := inject_Z (round_half_even (q * 10))) in *.
  assert (E : k / 10 - q == (k - q * 10) / 10) by field.
  rewrite E. split.
  - apply Qle_shift_div_l; [reflexivity|]. lra.
  - apply Qle_shift_div_r; [reflexivity|]. lra.
Qed.

Lemma any_positive_false (l : list Q) :
  Forall (fun p => p <= 0) l -> any_positive l = false.
Proof.
  unfold any_positive. induction 1 as [|p l Hp _ IH]; [reflexivity|].
  cbn [existsb]. apply Qle_bool_iff in Hp. by rewrite Hp, IH.
Qed.

Lemma any_positive_true (l : list Q) :
  any_positive l = true -> Exists (fun p => 0 < p) l.
Proof.
  unfold any_positive. induction l as [|p l IH]; [discriminate|]. cbn [existsb].
  destruct (Qle_bool p 0) eqn:E; cbn [negb orb].
  - intros H. right. by apply IH.
  - intros _. left. destruct (Qlt_le_dec 0 p) as [L|L]; [exact L|].
    apply Qle_bool_iff in L. congruence.
Qed.

(** The synthetic reading: one integer in [6..10] per logical core (one in
    all when the count is unknown), and their rounded mean. *)
Lemma cpu_fallback_spec (count : option nat) (g : rng) :
  exists zs m,
    cpu_fallback count g = Ok (VInt <$> zs, round1 m, snd (randints (count_or_1 count) 6 10 g))
    /\ length zs = count_or_1 count
    /\ Forall (fun z => (6 <= z <= 10)%Z) zs
    /\ mean (VInt <$> zs) = Ok m
    /\ 6 <= round1 m <= 10.
Proof.
  unfold cpu_fallback. set (n := count_or_1 count).
  pose proof (randints_length n 6 10 g) as Hlen.
  pose proof (randints_range n 6 10 ltac:(lia) g) as Hrange.
  set (zs := fst (randints n 6 10 g)) in *.
  destruct (mean_ints_bounds zs 6 10) as (m & Em & Hm); [|exact Hrange|].
  { intros E. rewrite E in Hlen. subst n. destruct count as [[|k]|]; discriminate. }
  exists zs, m. rewrite Em. cbn [bind].
  split; [reflexivity|]. split; [exact Hlen|]. split; [exact Hrange|].
  split; [reflexivity|]. apply (round1_bounds m 6 10 Hm).
Qed.

(** [sample_cpu] always returns a reading with a positive entry; on the
    fallback condition the reading is the synthetic one. *)
Lemma sample_cpu_spec (cp : outcome (list Q)) (count : option nat) (g : rng) :
  exists cpu_percpu cpu_overall g',
    sample_cpu cp count g = Ok (cpu_percpu, cpu_overall, g')
    /\ Exists (fun v => 0 < as_Q v) cpu_percpu
    /\ ((cp = Failed \/ exists l, cp = Returned l /\ Forall (fun p => p <= 0) l) ->
        exists zs m,
          cpu_percpu = VInt <$> zs
          /\ length zs = count_or_1 count
          /\ Forall (fun z => (6 <= z <= 10)%Z) zs
          /\ mean cpu_percpu = Ok m
          /\ cpu_overall = round1 m
          /\ 6 <= cpu_overall <= 10).
Proof.
  destruct (cpu_fallback_spec count g) as (zs & m & Ef & Hlen & Hrange & Em & Hb).
  assert (Hpos : Exists (fun v => 0 < as_Q v) (VInt <$> zs)).
  { destruct zs as [|z zs].
    - destruct count as [[|k]|]; discriminate Hlen.
    - left. apply Forall_cons in Hrange as [Hz _].
      unfold as_Q. cbn. change 0 with (inject_Z 0). rewrite <- Zlt_Qlt. lia. }
  assert (Hfb : exists zs0 m0,
             VInt <$> zs = VInt <$> zs0 /\ length zs0 = count_or_1 count
             /\ Forall (fun z => (6 <= z <= 10)%Z) zs0
             /\ mean (VInt <$> zs) = Ok m0 /\ round1 m = round1 m0
             /\ 6 <= round1 m <= 10).
  { exists zs, m. split; [reflexivity|]. split; [exact Hlen|]. split; [exact Hrange|].
    split; [exact Em|]. split; [reflexivity|]. exact Hb. }
  unfold sample_cpu. destruct cp as [l|].
  - destruct l as [|p l]; cbn [andb].
    + rewrite Ef. cbn [try_except]. eauto 10.
    + destruct (any_positive (p :: l)) eqn:Ea.
      * cbn [mean fmap list_fmap bind try_except].
        eexists _, _, _. split; [reflexivity|]. split.
        -- apply any_positive_true in Ea.
           change (Exists (fun v => 0 < as_Q v) (VFloat <$> (p :: l))).
           apply Exists_fmap. exact Ea.
        -- intros [?|(l0 & [= <-] & Hall)]; [discriminate|].
           apply any_positive_false in Hall. congruence.
      * rewrite Ef. cbn [try_except]. eauto 10.
  - cbn [try_except]. rewrite Ef. eauto 10.
Qed.

(** What [metrics] returns when its unwrapped calls return. *)
Lemma metrics_returns (h : host) (g : rng) (store : snapshot)
    cpu_percpu cpu_overall g' vm sm pc pm idn :
  sample_cpu (cpu_percent h) (cpu_count_logical h) g = Ok (cpu_percpu, cpu_overall, g') ->
  virtual_memory h = Returned vm ->
  swap_memory h = Returned sm ->
  top_by_cpu h = Returned pc ->
  top_by_memory h = Returned pm ->
  host_identity h = Returned idn ->
  exists sp sysinfo,
    get_io_and_net_speeds store (io_reading h) = Ok (sp, stored (io_reading h))
    /\ get_system_info h = Ok sysinfo
    /\ metrics h g store
       = Ok (response (cpu_section h cpu_percpu cpu_overall) (memory_section vm sm)
               (disks_section h) (network_totals_section h) sp
               (disk_io_totals_section h) (_get_gpu_info h) sysinfo
               (get_interfaces_detail h) (battery_section h) pc pm
               (page_faults_total h) (uptime h) (utcnow h) (connections_count h),
             g', stored (io_reading h)).
Proof.
  intros Ec Evm Esm Epc Epm Eid.
  destruct (poll_total store (io_reading h)) as [sp Esp].
  assert (Es : exists sysinfo, get_system_info h = Ok sysinfo).
  { unfold get_system_info. rewrite Eid. cbn [call bind].
    destruct idn as [[[[hostname system] platform] processor] architecture]. eauto. }
  destruct Es as [sysinfo Es]. exists sp, sysinfo.
  split; [exact Esp|]. split; [exact Es|].
  unfold metrics. rewrite Ec, Evm, Esm, Esp, Epc, Epm, Es. reflexivity.
Qed.




(** C9 (as stated) fails in two ways.  On a host whose network counters
    cannot be read the response is produced with all nineteen keys, but its
    ["network_totals"] section is filled with zeros: it is not null, not an
    empty list, and has no null field.  On the same host with
    [psutil.virtual_memory()] raising, no response is produced at all. *)
Lemma unavailable_network_reported_as_zeros :
  net_totals bare_host = Failed
  /\ virtual_memory no_meminfo_host = Failed
  /\ (fst <$> to_option (metrics no_meminfo_host (const_rng 7) _prev_snapshot)) = None
  /\ exists resp g' store',
       metrics bare_host (const_rng 7) _prev_snapshot = Ok (resp, g', store')
       /\ jkeys resp = response_keys
       /\ jget "network_totals" resp = Some zero_totals
       /\ jget "connections_count" resp = Some (JNum 0)
       /\ ~ unavailable_marker zero_totals.
Proof.
  split; [reflexivity|]. split; [reflexivity|]. split; [reflexivity|].
  destruct (sample_cpu_spec (cpu_percent bare_host) (cpu_count_logical bare_host)
              (const_rng 7)) as (percpu & overall & g' & Ec & _ & _).
  destruct (metrics_returns bare_host (const_rng 7) _prev_snapshot
              percpu overall g' _ _ _ _ _ Ec
              eq_refl eq_refl eq_refl eq_refl eq_refl)
    as (sp & sysinfo & _ & _ & Hm).
  eexists _, g', _. split; [exact Hm|].
  split; [reflexivity|]. split; [reflexivity|]. split; [reflexivity|].
  intros [E|[E|(fields & E & Hex)]]; try discriminate E.
  injection E as <-. unfold zero_totals in Hex.
  repeat (apply Exists_cons in Hex as [Hex|Hex]; [discriminate Hex|]).
  by apply Exists_nil in Hex.
Qed.

(** C9 (amended): whenever the calls [metrics] makes outside any [try]
    block return, a response is produced; its keys are the same nineteen on
    every call (the eighteen promised ones and ["message"]), whatever the
    wrapped calls do; and a wrapped call that fails leaves its fixed fallback
    in its section: an empty list (disks, gpu, interfaces), null fields
    (battery, disk_io_totals, load_avg, uptime, page_faults_total), zeros
    (network_totals, connections_count, the rates of the speed sections) and
    an empty per-interface object. *)
Theorem response_fields_stable (h : host) (g : rng) (store : snapshot) :
  unwrapped_calls_return h ->
  exists resp g' store',
    metrics h g store = Ok (resp, g', store')
    /\ jkeys resp = response_keys
    /\ Forall (fun k => is_Some (jget k resp)) promised_keys
    /\ (disk_partitions h = Failed -> jget "disks" resp = Some (JList []))
    /\ ((forall d, net_totals h <> Returned (Some d)) ->
        jget "network_totals" resp = Some zero_totals)
    /\ ((forall d, disk_totals h <> Returned (Some d)) ->
        jget "disk_io_totals" resp = Some null_disk_totals)
    /\ ((forall gs, gputil h <> Some (Returned gs)) ->
        jget "gpu" resp = Some (JList []))
    /\ (interfaces_detail h = Failed -> jget "interfaces" resp = Some (JList []))
    /\ ((forall b, sensors_battery h <> Returned (Some b)) ->
        jget "battery" resp = Some no_battery)
    /\ (process_faults h = Failed -> jget "page_faults_total" resp = Some JNull)
    /\ (boot_time h = Failed -> jget "uptime_boot_time" resp = Some JNull)
    /\ (net_connections h = Failed -> jget "connections_count" resp = Some (JNum 0))
    /\ ((forall l, getloadavg h <> Some (Returned l)) ->
        jget "cpu" resp ≫= jget "load_avg" = Some JNull)
    /\ ((read_net (io_reading h) = Failed \/ read_pernic (io_reading h) = Failed) ->
        jget "network_speeds" resp = Some (json_of_net_speeds zero_net)
        /\ jget "per_nic_speeds" resp = Some (JObj []))
    /\ (read_disk (io_reading h) = Failed ->
        jget "disk_io_speeds" resp = Some (json_of_disk_speeds zero_disk)).
Proof.
  intros ([vm Evm] & [sm Esm] & [pc Epc] & [pm Epm] & [idn Eid]).
  destruct (sample_cpu_spec (cpu_percent h) (cpu_count_logical h) g)
    as (percpu & overall & g' & Ec & _ & _).
  destruct (metrics_returns h g store percpu overall g' vm sm pc pm idn
              Ec Evm Esm Epc Epm Eid) as (sp & sysinfo & Hsp & _ & Hm).
  eexists _, g', _. split; [exact Hm|]. split; [reflexivity|]. split.
  { unfold promised_keys. repeat constructor; eexists; reflexivity. }
  cbn [jget response find fst snd String.eqb Ascii.eqb Bool.eqb fmap option_fmap option_map].
  apply poll_sections in Hsp as (_ & Hn & Hp & Hd).
  repeat split.
  - unfold disks_section. by intros ->.
  - unfold network_totals_section. intros Hne.
    destruct (net_totals h) as [[d|]|]; [by destruct (Hne d)|reflexivity|reflexivity].
  - unfold disk_io_totals_section. intros Hne.
    destruct (disk_totals h) as [[d|]|]; [by destruct (Hne d)|reflexivity|reflexivity].
  - unfold _get_gpu_info. intros Hne.
    destruct (gputil h) as [[gs|]|]; [by destruct (Hne gs)|reflexivity|reflexivity].
  - unfold get_interfaces_detail. by intros ->.
  - unfold battery_section. intros Hne.
    destruct (sensors_battery h) as [[b|]|]; [by destruct (Hne b)|reflexivity|reflexivity].
  - unfold page_faults_total. by intros ->.
  - unfold uptime. by intros ->.
  - unfold connections_count. by intros ->.
  - unfold cpu_section. cbn. intros Hne.
    destruct (getloadavg h) as [[[[l1 l5] l15]|]|];
      [by destruct (Hne (l1, l5, l15))|reflexivity|reflexivity].
  - assert (E : cur_net (io_reading h) = None).
    { unfold cur_net. destruct H as [-> | ->]; [reflexivity|].
      by destruct (read_net (io_reading h)). }
    unfold net_part in Hn. rewrite E in Hn. by injection Hn as <-.
  - assert (E : cur_pernic (io_reading h) = ∅).
    { unfold cur_pernic. destruct H as [-> | ->]; [reflexivity|].
      by destruct (read_net (io_reading h)). }
    unfold pernic_part, dict_truthy in Hp. rewrite E in Hp.
    rewrite bool_decide_eq_true_2 in Hp by reflexivity.
    injection Hp as <-. by rewrite fmap_empty, map_to_list_empty.
  - intros E. unfold disk_part, cur_disk in Hd. rewrite E in Hd. by injection Hd as <-.
Qed.

Lemma response_fields_stable_witness :
  exists resp g' store',
    metrics bare_host (const_rng 7) _prev_snapshot = Ok (resp, g', store')
    /\ jkeys resp = response_keys
    /\ jget "battery" resp = Some no_battery
    /\ jget "gpu" resp = Some (JList [])
    /\ jget "network_totals" resp = Some zero_totals.
Proof.
  destruct (response_fields_stable bare_host (const_rng 7) _prev_snapshot)
    as (resp & g' & store' & Hm & Hk & _ & _ & Hnet & _ & Hgpu & _ & Hbat & _).
  { unfold unwrapped_calls_return, returned. cbn. eauto 10. }
  exists resp, g', store'. split; [exact Hm|]. split; [exact Hk|].
  split; [apply Hbat; intros b E; discriminate E|].
  split; [apply Hgpu; intros gs E; discriminate E|].
  apply Hnet; intros d E; discriminate E.
Defined.

(** * Further properties of the rate engine *)

(** A stored timestamp that is falsy (the float [0.0]) is treated like no
    timestamp at all. *)
Lemma rate_falsy_time (s : snapshot) (r : reading) sp s' (c : counter) (t : Q) :
  get_io_and_net_speeds s r = Ok (sp, s') ->
  time s = Some t -> Qnonzero t = false ->
  forall v, reported_rate c sp = Some v -> v = VFloat 0.
Proof.
  intros H Ht Hz v Hv.
  pose proof (poll_per_nic _ _ _ _ H) as Hnic.
  apply poll_sections in H as (_ & Hn & _ & Hd).
  destruct c as [| |nic|nic| |]; cbn [reported_rate] in Hv.
  1,2: unfold net_part in Hn; rewrite Ht, Hz in Hn; injection Hv as <-;
       destruct (cur_net r); [destruct (net s)|]; injection Hn as <-; reflexivity.
  3,4: unfold disk_part in Hd; rewrite Ht, Hz in Hd; injection Hv as <-;
       destruct (cur_disk r); [destruct (disk_io s)|]; cbn in Hd;
       injection Hd as <-; reflexivity.
  all: rewrite Hnic in Hv; destruct (cur_pernic r !! nic) as [cc|]; [|discriminate];
       cbn [mbind option_bind] in Hv; unfold nic_entry in Hv; rewrite Ht, Hz in Hv;
       destruct (prev_counters (net_pernic s) nic); cbn in Hv;
       injection Hv as <-; reflexivity.
Qed.

(** Every rate reported for a counter the poll read is a float: either the
    literal [0.0], or -- with a truthy stored timestamp [T1] and a stored value
    [C1] -- the quotient of line 122 over the floored elapsed time. *)
Lemma rate_cases (s : snapshot) (r : reading) (c : counter) (C2 : Z) :
  read_counter c r = Some C2 ->
  exists sp q,
    get_io_and_net_speeds s r = Ok (sp, stored r)
    /\ reported_rate c sp = Some (VFloat q)
    /\ (q = 0
        \/ exists T1 C1,
             time s = Some T1 /\ Qnonzero T1 = true /\ prev_counter c s = Some C1
             /\ q == inject_Z (C2 - or_int C1 C2) / Qmax (clock r - T1) eps).
Proof.
  intros Hc. destruct (poll_total s r) as [sp H].
  destruct (reported_some _ _ _ _ c C2 H Hc) as [v Hv].
  destruct (time s) as [T1|] eqn:Ht.
  - destruct (Qnonzero T1) eqn:Hz.
    + destruct (prev_counter c s) as [C1|] eqn:Hp.
      * destruct (rate_warm s r c T1 C1 C2 Ht Hz Hp Hc) as (sp' & q & H' & Hr & Hq).
        rewrite H in H'. injection H' as <-.
        exists sp, q. split; [exact H|]. split; [exact Hr|]. right. eauto 10.
      * exists sp, 0. split; [exact H|]. split; [|by left].
        rewrite Hv. f_equal. apply (rate_zero _ _ _ _ c H); [|exact Hv]. right; by left.
    + exists sp, 0. split; [exact H|]. split; [|by left].
      rewrite Hv. f_equal. by apply (rate_falsy_time _ _ _ _ c T1 H Ht Hz).
  - exists sp, 0. split; [exact H|]. split; [|by left].
    rewrite Hv. f_equal. apply (rate_zero _ _ _ _ c H); [|exact Hv]. by left.
Qed.

Lemma Qmax_eps_pos (x : Q) : 0 < Qmax x eps.
Proof. pose proof (Q.le_max_r x eps). pose proof eps_pos. lra. Qed.

(** X1: a poll never raises, whatever the store holds and whatever the
    reads return, and the store it leaves is built from the reading alone. *)
Theorem poll_never_raises (s : snapshot) (r : reading) :
  exists sp,
    get_io_and_net_speeds s r = Ok (sp, stored r)
    /\ forall s0 sp0 st0,
         get_io_and_net_speeds s0 r = Ok (sp0, st0) -> st0 = stored r.
Proof.
  destruct (poll_total s r) as [sp H]. exists sp. split; [exact H|].
  intros s0 sp0 st0 H0. by apply poll_sections in H0 as (-> & _).
Qed.

(** X2: both network reads share one [try] (lines 130-135), so when the
    per-interface read raises the aggregate counters already read are
    dropped too: the network rates are [0.0], no interface is reported, and
    the store keeps no network counters. *)
Theorem pernic_failure_drops_aggregate (s : snapshot) (r : reading) :
  read_pernic r = Failed ->
  exists sp,
    get_io_and_net_speeds s r = Ok (sp, stored r)
    /\ sp_net sp = zero_net
    /\ sp_per_nic sp = ∅
    /\ net (stored r) = None
    /\ net_pernic (stored r) = Some ∅.
Proof.
  intros Hf. destruct (poll_total s r) as [sp H]. exists sp. split; [exact H|].
  apply poll_sections in H as (_ & Hn & Hp & _).
  assert (En : cur_net r = None).
  { unfold cur_net. rewrite Hf. by destruct (read_net r). }
  assert (Ep : cur_pernic r = ∅).
  { unfold cur_pernic. rewrite Hf. by destruct (read_net r). }
  unfold net_part in Hn. rewrite En in Hn. injection Hn as <-.
  unfold pernic_part, dict_truthy in Hp. rewrite Ep in Hp.
  rewrite bool_decide_eq_true_2 in Hp by reflexivity. injection Hp as <-.
  cbn [stored net net_pernic]. rewrite En, Ep. auto.
Qed.

Lemma pernic_failure_drops_aggregate_witness :
  read_net (
    {| clock := 12; read_net := Returned (Some (mk_nic 2000 3000));
       read_pernic := Failed; read_disk := Returned None |}) = Returned (Some (mk_nic 2000 3000))
  /\ exists sp,
       get_io_and_net_speeds (stored sample_a)
         {| clock := 12; read_net := Returned (Some (mk_nic 2000 3000));
            read_pernic := Failed; read_disk := Returned None |}
       = Ok (sp, stored {| clock := 12; read_net := Returned (Some (mk_nic 2000 3000));
                           read_pernic := Failed; read_disk := Returned None |})
       /\ sp_net sp = zero_net.
Proof.
  split; [reflexivity|].
  destruct (pernic_failure_drops_aggregate (stored sample_a)
              {| clock := 12; read_net := Returned (Some (mk_nic 2000 3000));
                 read_pernic := Failed; read_disk := Returned None |} eq_refl)
    as (sp & H & Hz & _).
  exists sp. split; [exact H|exact Hz].
Defined.

(** X3: a counter whose value equals the stored one is reported with rate
    zero, for every store state and every pair of timestamps. *)
Theorem unchanged_counter_zero_rate
    (s : snapshot) (r : reading) (c : counter) (C : Z) :
  prev_counter c s = Some C ->
  read_counter c r = Some C ->
  exists sp q,
    get_io_and_net_speeds s r = Ok (sp, stored r)
    /\ reported_rate c sp = Some (VFloat q)
    /\ q == 0.
Proof.
  intros Hp Hc. destruct (rate_cases s r c C Hc) as (sp & q & H & Hr & Hq).
  exists sp, q. split; [exact H|]. split; [exact Hr|].
  destruct Hq as [-> | (T1 & C1 & _ & _ & Hp' & ->)]; [reflexivity|].
  rewrite Hp in Hp'. injection Hp' as <-.
  unfold or_int. destruct (C =? 0)%Z; rewrite Z.sub_diag; unfold Qdiv; apply Qmult_0_l.
Qed.

Lemma unchanged_counter_zero_rate_witness :
  exists sp q,
    get_io_and_net_speeds (stored sample_a) sample_a = Ok (sp, stored sample_a)
    /\ reported_rate (NicRecv "eth0") sp = Some (VFloat q)
    /\ q == 0.
Proof.
  apply (unchanged_counter_zero_rate (stored sample_a) sample_a (NicRecv "eth0") 200);
    reflexivity.
Defined.

(** X4: a counter that did not decrease is never reported with a negative
    rate, for every store state (a stored value of 0 included). *)
Theorem nondecreasing_counter_nonnegative_rate
    (s : snapshot) (r : reading) (c : counter) (C1 C2 : Z) :
  prev_counter c s = Some C1 ->
  read_counter c r = Some C2 ->
  (C1 <= C2)%Z ->
  exists sp q,
    get_io_and_net_speeds s r = Ok (sp, stored r)
    /\ reported_rate c sp = Some (VFloat q)
    /\ 0 <= q.
Proof.
  intros Hp Hc Hle. destruct (rate_cases s r c C2 Hc) as (sp & q & H & Hr & Hq).
  exists sp, q. split; [exact H|]. split; [exact Hr|].
  destruct Hq as [-> | (T1 & C1' & _ & _ & Hp' & ->)]; [apply Qle_refl|].
  rewrite Hp in Hp'. injection Hp' as <-.
  apply Qle_shift_div_l; [apply Qmax_eps_pos|]. rewrite Qmult_0_l.
  change 0 with (inject_Z 0). rewrite <- Zle_Qle.
  unfold or_int. destruct (C1 =? 0)%Z; lia.
Qed.

Lemma nondecreasing_counter_nonnegative_rate_witness :
  exists sp q,
    get_io_and_net_speeds (stored idle_1) idle_2 = Ok (sp, stored idle_2)
    /\ reported_rate NetSent sp = Some (VFloat q)
    /\ 0 <= q.
Proof.
  apply (nondecreasing_counter_nonnegative_rate (stored idle_1) idle_2 NetSent 0 500);
    [reflexivity|reflexivity|lia].
Defined.

(** X5: the floor bounds every rate: whatever the timestamps, the reported
    rate of a counter is at most the counter difference divided by [eps]
    (one million times the difference) in absolute value. *)
Theorem rate_bounded_by_floor
    (s : snapshot) (r : reading) (c : counter) (C1 C2 : Z) :
  prev_counter c s = Some C1 ->
  read_counter c r = Some C2 ->
  exists sp q,
    get_io_and_net_speeds s r = Ok (sp, stored r)
    /\ reported_rate c sp = Some (VFloat q)
    /\ - (inject_Z (Z.abs (C2 - C1)) / eps) <= q <= inject_Z (Z.abs (C2 - C1)) / eps.
Proof.
  intros Hp Hc. destruct (rate_cases s r c C2 Hc) as (sp & q & H & Hr & Hq).
  exists sp, q. split; [exact H|]. split; [exact Hr|].
  set (D := inject_Z (Z.abs (C2 - C1))).
  assert (HD : 0 <= D).
  { subst D. change 0 with (inject_Z 0). rewrite <- Zle_Qle. lia. }
  assert (Hbound : - (D / eps) <= 0 <= D / eps).
  { assert (0 <= D / eps) by (apply Qle_shift_div_l; [exact eps_pos|lra]). split; lra. }
  destruct Hq as [-> | (T1 & C1' & _ & _ & Hp' & Hq)]; [exact Hbound|].
  rewrite Hp in Hp'. injection Hp' as <-.
  set (M := Qmax (clock r - T1) eps) in *.
  assert (HM : eps <= M) by apply Q.le_max_r.
  pose proof eps_pos as He.
  set (a := inject_Z (C2 - or_int C1 C2)) in *.
  assert (Ha : - D <= a <= D).
  { subst a D. rewrite <- inject_Z_opp, <- !Zle_Qle.
    unfold or_int. destruct (C1 =? 0)%Z; lia. }
  assert (Hqa : q * M == a) by (rewrite Hq; field; lra).
  assert (Hup : q * eps <= D) by nra.
  assert (Hlo : - D <= q * eps) by nra.
  split.
  - cut (- D / eps <= q).
    { intros G. assert (Eq : - (D / eps) == - D / eps) by (field; lra).
      rewrite Eq. exact G. }
    apply Qle_shift_div_r; [exact He|exact Hlo].
  - apply Qle_shift_div_l; [exact He|exact Hup].
Qed.

Lemma rate_bounded_by_floor_witness :
  exists sp q,
    get_io_and_net_speeds (stored tick_1) tick_2 = Ok (sp, stored tick_2)
    /\ reported_rate NetSent sp = Some (VFloat q)
    /\ - (inject_Z (Z.abs (1500 - 1000)) / eps) <= q
       <= inject_Z (Z.abs (1500 - 1000)) / eps.
Proof.
  apply (rate_bounded_by_floor (stored tick_1) tick_2 NetSent 1000 1500); reflexivity.
Defined.

(** X6: over three consecutive polls at least [eps] apart (non-zero
    timestamps, non-zero counter values at the first two), the two reported
    rates weighted by their intervals add up to the whole counter
    difference: nothing is lost or counted twice between polls. *)
Theorem rates_integrate_to_difference
    (s0 : snapshot) (r1 r2 r3 : reading) (c : counter) (C1 C2 C3 : Z) :
  ~ clock r1 == 0 -> ~ clock r2 == 0 ->
  eps <= clock r2 - clock r1 -> eps <= clock r3 - clock r2 ->
  read_counter c r1 = Some C1 -> read_counter c r2 = Some C2 ->
  read_counter c r3 = Some C3 ->
  C1 <> 0%Z -> C2 <> 0%Z ->
  exists sp1 sp2 sp3 q2 q3,
    get_io_and_net_speeds s0 r1 = Ok (sp1, stored r1)
    /\ get_io_and_net_speeds (stored r1) r2 = Ok (sp2, stored r2)
    /\ get_io_and_net_speeds (stored r2) r3 = Ok (sp3, stored r3)
    /\ reported_rate c sp2 = Some (VFloat q2)
    /\ reported_rate c sp3 = Some (VFloat q3)
    /\ q2 * (clock r2 - clock r1) + q3 * (clock r3 - clock r2) == inject_Z (C3 - C1).
Proof.
  intros Ht1 Ht2 Hd1 Hd2 H1 H2 H3 Hn1 Hn2.
  destruct (poll_total s0 r1) as [sp1 E1].
  destruct (rate_warm (stored r1) r2 c (clock r1) C1 C2 eq_refl
              (proj2 (Qnonzero_true _) Ht1)) as (sp2 & q2 & E2 & Hr2 & Hq2);
    [by rewrite stored_counter|exact H2|].
  destruct (rate_warm (stored r2) r3 c (clock r2) C2 C3 eq_refl
              (proj2 (Qnonzero_true _) Ht2)) as (sp3 & q3 & E3 & Hr3 & Hq3);
    [by rewrite stored_counter|exact H3|].
  exists sp1, sp2, sp3, q2, q3.
  split; [exact E1|]. split; [exact E2|]. split; [exact E3|].
  split; [exact Hr2|]. split; [exact Hr3|].
  rewrite Hq2, Hq3, (Q.max_l _ _ Hd1), (Q.max_l _ _ Hd2).
  unfold or_int.
  destruct (Z.eqb_spec C1 0) as [?|_]; [contradiction|].
  destruct (Z.eqb_spec C2 0) as [?|_]; [contradiction|].
  pose proof eps_pos.
  rewrite <- !Z.add_opp_r, !inject_Z_plus, !inject_Z_opp. field. split; lra.
Qed.

Lemma rates_integrate_to_difference_witness :
  exists sp1 sp2 sp3 q2 q3,
    get_io_and_net_speeds _prev_snapshot sample_a = Ok (sp1, stored sample_a)
    /\ get_io_and_net_speeds (stored sample_a) recovered = Ok (sp2, stored recovered)
    /\ get_io_and_net_speeds (stored recovered) steady = Ok (sp3, stored steady)
    /\ reported_rate NetSent sp2 = Some (VFloat q2)
    /\ reported_rate NetSent sp3 = Some (VFloat q3)
    /\ q2 * (clock recovered - clock sample_a) + q3 * (clock steady - clock recovered)
       == inject_Z (2600 - 1000).
Proof.
  apply (rates_integrate_to_difference _prev_snapshot sample_a recovered steady
           NetSent 1000 2000 2600);
    try reflexivity; try discriminate;
    try (intros E; vm_compute in E; discriminate E);
    try (vm_compute; intros E; discriminate E).
Defined.

(** X7: the disk section of a result takes its operation counts from the
    current disk counters alone; when the disk read raises or returns
    [None] the counts are null and both disk rates are the literal [0.0]. *)
Theorem disk_counts_from_current (s : snapshot) (r : reading) :
  exists sp,
    get_io_and_net_speeds s r = Ok (sp, stored r)
    /\ io_read_count (sp_disk_io sp) = cur_disk r ≫= read_count
    /\ io_write_count (sp_disk_io sp) = cur_disk r ≫= write_count
    /\ (cur_disk r = None -> sp_disk_io sp = zero_disk)
    /\ (read_disk r = Failed -> cur_disk r = None).
Proof.
  destruct (poll_total s r) as [sp H]. exists sp. split; [exact H|].
  apply poll_sections in H as (_ & _ & _ & Hd).
  unfold disk_part in Hd. split; [|split; [|split]].
  - destruct (cur_disk r) as [d|]; [|by injection Hd as <-].
    destruct (match time s with Some _ => _ | None => _ end); [|discriminate Hd].
    by injection Hd as <-.
  - destruct (cur_disk r) as [d|]; [|by injection Hd as <-].
    destruct (match time s with Some _ => _ | None => _ end); [|discriminate Hd].
    by injection Hd as <-.
  - intros E. rewrite E in Hd. by injection Hd as <-.
  - unfold cur_disk. by intros ->.
Qed.

(** * Further properties of the pollers *)

Lemma step_keeps_provenance (g0 : snapshot) (rs : list reading)
    (g : snapshot) (p : poller) :
  fields_from g0 rs g -> poller_ok g0 rs p ->
  fields_from g0 rs (fst (step g p)) /\ poller_ok g0 rs (snd (step g p)).
Proof.
  intros (Ft & Fn & Fp & Fd) (Hs & Pt & Pn & Pp & Pd).
  unfold step. destruct (at_pc p) eqn:E; cbn [fst snd pc_index] in *.
  all: unfold fields_from, poller_ok;
       cbn [time net net_pernic disk_io sample at_pc at_ seen_time seen_net
            seen_pernic seen_disk pc_index].
  all: try rewrite E; cbn [pc_index].
  all: repeat split; try assumption; try (intros; lia);
       try (intros _; first [apply Pt|apply Pn|apply Pp|apply Pd]; lia);
       try (right; exists (sample p); split; [exact Hs|reflexivity]).
  all: intros _; assumption.
Qed.

Lemma run_keeps_provenance (g0 : snapshot) (rs : list reading) (sched : list nat) :
  forall st,
    fields_from g0 rs (fst st) -> Forall (poller_ok g0 rs) (snd st) ->
    fields_from g0 rs (fst (run sched st))
    /\ Forall (poller_ok g0 rs) (snd (run sched st)).
Proof.
  induction sched as [|i sched IH]; intros st Hg Hps; [by split|].
  cbn [run foldl]. apply IH.
  - unfold sched_step. destruct (snd st !! i) as [p|] eqn:E; [|exact Hg].
    cbn [fst]. apply step_keeps_provenance; [exact Hg|].
    by eapply (Forall_lookup_1 _ _ _ _ Hps).
  - unfold sched_step. destruct (snd st !! i) as [p|] eqn:E; [|exact Hps].
    cbn [snd]. apply Forall_insert; [exact Hps|].
    apply step_keeps_provenance; [exact Hg|].
    by eapply (Forall_lookup_1 _ _ _ _ Hps).
Qed.

(** X8: under every schedule, interleaved or not, each field of the store
    is the initial store's field or the corresponding field of some poller's
    sample, and so is each field a poller has loaded.  Samples can tear
    across fields; a field is never anything else. *)
Theorem store_fields_have_provenance
    (g0 : snapshot) (rs : list reading) (sched : list nat) :
  fields_from g0 rs (fst (run sched (g0, start <$> rs)))
  /\ forall p,
       p ∈ snd (run sched (g0, start <$> rs)) ->
       sample p ∈ rs
       /\ ((3 < pc_index (at_pc p))%nat -> fields_from g0 rs (observed p)).
Proof.
  destruct (run_keeps_provenance g0 rs sched (g0, start <$> rs)) as [Hg Hps].
  - cbn [fst]. unfold fields_from. auto.
  - cbn [snd]. apply Forall_fmap, Forall_forall. intros r Hr.
    unfold poller_ok. cbn. split; [exact Hr|]. repeat split; intros; lia.
  - split; [exact Hg|]. intros p Hp.
    rewrite Forall_forall in Hps. destruct (Hps p Hp) as (Hs & Pt & Pn & Pp & Pd).
    split; [exact Hs|]. intros Hpc. unfold fields_from, observed.
    cbn [time net net_pernic disk_io].
    split; [apply Pt; lia|]. split; [apply Pn; lia|]. split; [apply Pp; lia|apply Pd; lia].
Qed.

(** * Further properties of the aggregator *)

Lemma py_sum_floats_bounds (l : list Q) (a b : Q) :
  Forall (fun p => a <= p <= b) l ->
  a * inject_Z (Z.of_nat (length l)) <= py_sum (VFloat <$> l)
  /\ py_sum (VFloat <$> l) <= b * inject_Z (Z.of_nat (length l)).
Proof.
  induction 1 as [|p l [Hp1 Hp2] _ [IH1 IH2]].
  - cbn. split; ring_simplify; apply Qle_refl.
  - cbn [length fmap list_fmap py_sum foldr]. fold (py_sum (VFloat <$> l)).
    rewrite Nat2Z.inj_succ, <- Z.add_1_r, inject_Z_plus.
    unfold as_Q. cbn [num_of default from_option id].
    change (list_fmap Q value VFloat l) with (VFloat <$> l).
    change (inject_Z 1) with 1. split; nra.
Qed.

Lemma mean_floats_bounds (l : list Q) (a b : Q) :
  l <> [] ->
  Forall (fun p => a <= p <= b) l ->
  exists m, mean (VFloat <$> l) = Ok m /\ a <= m <= b.
Proof.
  intros Hne Hall. destruct (py_sum_floats_bounds l a b Hall) as [H1 H2].
  destruct l as [|p l]; [contradiction|].
  eexists. split; [reflexivity|]. rewrite length_fmap.
  assert (Hn : 0 < inject_Z (Z.of_nat (length (p :: l)))).
  { change 0 with (inject_Z 0). rewrite <- Zlt_Qlt. cbn [length]. lia. }
  split.
  - apply Qle_shift_div_l; assumption.
  - apply Qle_shift_div_r; assumption.
Qed.

(** X9: a measured reading with at least one positive entry is passed on
    untouched: the per-CPU list is the measured list, no random draw is
    made, and the overall value is the mean rounded to one decimal: a
    one-decimal value within 1/20 of the mean of the measured entries. *)
Theorem measured_reading_kept
    (l : list Q) (count : option nat) (g : rng) :
  Exists (fun p => 0 < p) l ->
  exists cpu_overall,
    sample_cpu (Returned l) count g = Ok (VFloat <$> l, cpu_overall, g)
    /\ (exists k : Z, cpu_overall == inject_Z k / 10)
    /\ - (1 # 20)
       <= cpu_overall - py_sum (VFloat <$> l) / inject_Z (Z.of_nat (length l))
       <= 1 # 20.
Proof.
  intros Hex. unfold sample_cpu.
  assert (Ha : any_positive l = true).
  { destruct (any_positive l) eqn:E; [reflexivity|]. exfalso.
    unfold any_positive in E. induction Hex as [p l Hp|p l _ IH].
    - cbn [existsb] in E. apply orb_false_iff in E as [E _].
      apply negb_false_iff, Qle_bool_iff in E. lra.
    - cbn [existsb] in E. apply orb_false_iff in E as [_ E]. by apply IH. }
  rewrite Ha. destruct l as [|p l]; [by apply Exists_nil in Hex|].
  cbn [andb].
  exists (round1 (py_sum (VFloat <$> (p :: l)) / inject_Z (Z.of_nat (length (p :: l))))).
  split; [|apply round1_near].
  rewrite <- (length_fmap VFloat (p :: l)). reflexivity.
Qed.

Lemma measured_reading_kept_witness :
  exists cpu_overall,
    sample_cpu (Returned [0; 25 # 2; 0; 5]) (Some 4%nat) (const_rng 7)
    = Ok (VFloat <$> [0; 25 # 2; 0; 5], cpu_overall, const_rng 7)
    /\ (exists k : Z, cpu_overall == inject_Z k / 10)
    /\ - (1 # 20)
       <= cpu_overall
          - py_sum (VFloat <$> [0; 25 # 2; 0; 5]) / inject_Z (Z.of_nat 4)
       <= 1 # 20.
Proof.
  apply (measured_reading_kept [0; 25 # 2; 0; 5] (Some 4%nat) (const_rng 7)).
  right. left. reflexivity.
Defined.

(** X10: when every measured percentage lies in [0, 100], so do the
    overall percentage and every per-CPU entry that is reported, whether the
    reading is the measured or the synthetic one. *)
Theorem cpu_percentages_in_range
    (cp : outcome (list Q)) (count : option nat) (g : rng) :
  (forall l, cp = Returned l -> Forall (fun p => 0 <= p <= 100) l) ->
  exists cpu_percpu cpu_overall g',
    sample_cpu cp count g = Ok (cpu_percpu, cpu_overall, g')
    /\ 0 <= cpu_overall <= 100
    /\ Forall (fun v => 0 <= as_Q v <= 100) cpu_percpu.
Proof.
  intros Hrange.
  assert (Hfb : exists percpu overall g',
             cpu_fallback count g = Ok (percpu, overall, g')
             /\ 0 <= overall <= 100
             /\ Forall (fun v => 0 <= as_Q v <= 100) percpu).
  { destruct (cpu_fallback_spec count g) as (zs & m & Ef & _ & Hz & _ & Hb).
    eexists _, _, _. split; [exact Ef|]. split; [lra|].
    apply Forall_fmap. eapply Forall_impl; [exact Hz|].
    intros z [Hz1 Hz2]. unfold as_Q. cbn.
    rewrite Zle_Qle in Hz1, Hz2.
    change (inject_Z 6) with 6 in Hz1. change (inject_Z 10) with 10 in Hz2. lra. }
  destruct Hfb as (percpu & overall & g' & Ef & Ho & Hp).
  unfold sample_cpu. rewrite Ef.
  destruct cp as [l|]; [|cbn [try_except]; eauto 10].
  specialize (Hrange l eq_refl). destruct l as [|p l]; [cbn; eauto 10|].
  cbn [andb]. destruct (any_positive (p :: l)); [|cbn [try_except]; eauto 10].
  destruct (mean_floats_bounds (p :: l) 0 100 ltac:(discriminate) Hrange)
    as (m & Em & Hm).
  rewrite Em. cbn [bind try_except]. eexists _, _, _. split; [reflexivity|]. split.
  - apply (round1_bounds m 0 100). exact Hm.
  - apply Forall_fmap. exact Hrange.
Qed.

Lemma cpu_percentages_in_range_witness :
  exists cpu_percpu cpu_overall g',
    sample_cpu (Returned [0; 100; 33 # 2]) (Some 3%nat) (const_rng 1)
    = Ok (cpu_percpu, cpu_overall, g')
    /\ 0 <= cpu_overall <= 100
    /\ Forall (fun v => 0 <= as_Q v <= 100) cpu_percpu.
Proof.
  apply (cpu_percentages_in_range (Returned [0; 100; 33 # 2]) (Some 3%nat) (const_rng 1)).
  intros l [= <-]. repeat constructor; intros E; discriminate E.
Defined.

(** Whatever [metrics] returns is the dict of lines 354-374 around the
    values its calls returned. *)
Lemma metrics_inv (h : host) (g : rng) (store : snapshot) resp g' store' :
  metrics h g store = Ok (resp, g', store') ->
  exists cpu_percpu cpu_overall vm sm sp pc pm sysinfo,
    sample_cpu (cpu_percent h) (cpu_count_logical h) g = Ok (cpu_percpu, cpu_overall, g')
    /\ virtual_memory h = Returned vm
    /\ swap_memory h = Returned sm
    /\ get_io_and_net_speeds store (io_reading h) = Ok (sp, store')
    /\ top_by_cpu h = Returned pc
    /\ top_by_memory h = Returned pm
    /\ get_system_info h = Ok sysinfo
    /\ resp = response (cpu_section h cpu_percpu cpu_overall) (memory_section vm sm)
                (disks_section h) (network_totals_section h) sp
                (disk_io_totals_section h) (_get_gpu_info h) sysinfo
                (get_interfaces_detail h) (battery_section h) pc pm
                (page_faults_total h) (uptime h) (utcnow h) (connections_count h).
Proof.
  unfold metrics. intros Hm.
  destruct (sample_cpu _ _ _) as [[[percpu overall] g1]|]; [|discriminate Hm].
  cbn [bind fst snd] in Hm.
  destruct (virtual_memory h) as [vm|]; [|discriminate Hm].
  destruct (swap_memory h) as [sm|]; [|discriminate Hm]. cbn [bind call] in Hm.
  destruct (get_io_and_net_speeds store (io_reading h)) as [[sp st]|]; [|discriminate Hm].
  cbn [bind fst snd] in Hm.
  destruct (top_by_cpu h) as [pc|]; [|discriminate Hm].
  destruct (top_by_memory h) as [pm|]; [|discriminate Hm]. cbn [bind call] in Hm.
  destruct (get_system_info h) as [sysinfo|]; [|discriminate Hm]. cbn [bind] in Hm.
  inversion Hm. subst. eauto 20.
Qed.

(** X12: [metrics] produces a response exactly when the calls it makes
    outside any [try] block return; the wrapped calls can fail in any
    combination without effect on that.  When it does fail, the exception is
    the failing call's own: the arithmetic of the CPU and rate computations
    never contributes a [TypeError] or a [ZeroDivisionError]. *)
Theorem metrics_returns_iff (h : host) (g : rng) (store : snapshot) :
  (unwrapped_calls_return h
   <-> exists resp g' store', metrics h g store = Ok (resp, g', store'))
  /\ (forall e, metrics h g store = Raise e -> e = OtherError).
Proof.
  destruct (sample_cpu_spec (cpu_percent h) (cpu_count_logical h) g)
    as (percpu & overall & g' & Ec & _ & _).
  split; [split|].
  - intros ([vm Evm] & [sm Esm] & [pc Epc] & [pm Epm] & [idn Eid]).
    destruct (metrics_returns h g store percpu overall g' vm sm pc pm idn
                Ec Evm Esm Epc Epm Eid) as (sp & sysinfo & _ & _ & Hm).
    eauto.
  - intros (resp & g1 & st & Hm).
    apply metrics_inv in Hm
      as (? & ? & vm & sm & ? & pc & pm & sysinfo & _ & Evm & Esm & _ & Epc & Epm & Es & _).
    unfold unwrapped_calls_return, returned. rewrite Evm, Esm, Epc, Epm.
    repeat split; eauto.
    unfold get_system_info in Es. destruct (host_identity h); [eauto|discriminate Es].
  - intros e. unfold metrics. rewrite Ec. cbn [bind fst snd].
    destruct (virtual_memory h); [|by intros [= <-]].
    destruct (swap_memory h); [|by intros [= <-]]. cbn [bind call].
    destruct (poll_total store (io_reading h)) as [sp ->]. cbn [bind fst snd].
    destruct (top_by_cpu h); [|by intros [= <-]].
    destruct (top_by_memory h); [|by intros [= <-]]. cbn [bind call].
    unfold get_system_info. destruct (host_identity h) as [idn|]; [|by intros [= <-]].
    cbn [bind call].
    destruct idn as [[[[hostname system] platform] processor] architecture].
    discriminate.
Qed.

(** X13: the sections that [metrics] builds itself have fixed inner keys
    in every response, whatever is available: five under ["cpu"], six under
    ["memory"], four under ["battery"], two under ["network_speeds"], four
    under ["disk_io_speeds"], and four in every entry of ["per_nic_speeds"]. *)
Theorem section_keys_fixed (h : host) (g : rng) (store : snapshot) resp g' store' :
  metrics h g store = Ok (resp, g', store') ->
  jkeys <$> jget "cpu" resp
  = Some ["cpu_percent"; "cpu_count_logical"; "cpu_count_physical"; "per_cpu"; "load_avg"]
  /\ jkeys <$> jget "memory" resp
     = Some ["virtual_percent"; "virtual_total"; "virtual_available";
             "swap_percent"; "swap_total"; "page_faults"]
  /\ jkeys <$> jget "battery" resp
     = Some ["present"; "percent"; "secsleft"; "power_plugged"]
  /\ jkeys <$> jget "network_speeds" resp
     = Some ["bytes_sent_per_sec"; "bytes_recv_per_sec"]
  /\ jkeys <$> jget "disk_io_speeds" resp
     = Some ["read_bytes_per_sec"; "write_bytes_per_sec"; "read_count"; "write_count"]
  /\ exists entries,
       jget "per_nic_speeds" resp = Some (JObj entries)
       /\ Forall (fun kv => jkeys (snd kv)
                            = ["bytes_sent_per_sec"; "bytes_recv_per_sec";
                               "packets_sent"; "packets_recv"]) entries.
Proof.
  intros Hm. apply metrics_inv in Hm
    as (percpu & overall & vm & sm & sp & pc & pm & sysinfo & _ & _ & _ & _ & _ & _ & _ & ->).
  split; [reflexivity|]. split; [reflexivity|]. split.
  { cbn. unfold battery_section. by destruct (sensors_battery h) as [[b|]|]. }
  split; [reflexivity|]. split; [reflexivity|].
  eexists. split; [reflexivity|].
  apply Forall_forall. intros [k j] Hin. cbn [snd].
  apply elem_of_map_to_list in Hin. rewrite lookup_fmap in Hin.
  destruct (sp_per_nic sp !! k) as [e|]; [|discriminate Hin].
  injection Hin as <-. reflexivity.
Qed.

Lemma section_keys_fixed_witness :
  exists resp,
    fst <$> (fst <$> to_option (metrics bare_host (const_rng 7) _prev_snapshot)) = Some resp
    /\ jkeys <$> jget "battery" resp
       = Some ["present"; "percent"; "secsleft"; "power_plugged"].
Proof.
  destruct (metrics bare_host (const_rng 7) _prev_snapshot) as [[[resp g'] st]|] eqn:Hm;
    [|exfalso; vm_compute in Hm; discriminate Hm].
  exists resp. split; [reflexivity|].
  destruct (section_keys_fixed bare_host (const_rng 7) _prev_snapshot resp g' st Hm)
    as (_ & _ & Hb & _).
  exact Hb.
Defined.

(** * Process listings *)

Module ProcessFacts.
Import Processes.

Example top_cpu_run :
  pid <$> get_top_processes_by_cpu 2 [busy; gone; fresh] = [11%Z; 10%Z].
Proof. reflexivity. Qed.

Example top_memory_run :
  (fun e => (pid (fst e), snd e)) <$> get_top_processes_by_memory 1 [fresh; gone; busy]
  = [(10%Z, Some 120%Z)].
Proof. reflexivity. Qed.

Section Sorting.
Context {A : Type} (key : A -> Q).

Lemma insert_desc_perm (x : A) (l : list A) : insert_desc key x l ≡ₚ x :: l.
Proof.
  induction l as [|y ys IH]; cbn; [reflexivity|].
  destruct (Qle_bool (key y) (key x)); [reflexivity|].
  rewrite IH. apply Permutation_swap.
Qed.

Lemma sort_desc_perm (l : list A) : sort_desc key l ≡ₚ l.
Proof.
  induction l as [|x l IH]; cbn; [reflexivity|].
  rewrite insert_desc_perm. by rewrite IH.
Qed.

Lemma insert_desc_sorted (x : A) (l : list A) :
  StronglySorted (key_desc key) l -> StronglySorted (key_desc key) (insert_desc key x l).
Proof.
  induction 1 as [|y ys Hs IH Hall]; cbn.
  - repeat constructor.
  - destruct (Qle_bool (key y) (key x)) eqn:E.
    + apply Qle_bool_iff in E. constructor; [by constructor|].
      constructor; [exact E|].
      eapply Forall_impl; [exact Hall|]. unfold key_desc. intros z Hz. lra.
    + constructor; [exact IH|].
      rewrite insert_desc_perm. constructor; [|exact Hall].
      unfold key_desc. destruct (Qlt_le_dec (key x) (key y)) as [L|L]; [lra|].
      apply Qle_bool_iff in L. congruence.
Qed.

Lemma sort_desc_sorted (l : list A) : StronglySorted (key_desc key) (sort_desc key l).
Proof.
  induction l as [|x l IH]; cbn; [constructor|]. by apply insert_desc_sorted.
Qed.

Lemma sorted_take_dominates (l : list A) (n : nat) :
  StronglySorted (key_desc key) l ->
  forall x y, x ∈ take n l -> y ∈ drop n l -> key y <= key x.
Proof.
  intros Hs. revert n. induction Hs as [|z zs Hs IH Hall]; intros n x y Hx Hy.
  - rewrite take_nil in Hx. by apply elem_of_nil in Hx.
  - destruct n as [|n]; [by apply elem_of_nil in Hx|]. cbn in Hx, Hy.
    apply elem_of_cons in Hx as [->|Hx]; [|by eapply IH].
    rewrite Forall_forall in Hall. apply Hall.
    by apply (subseteq_drop n zs).
Qed.

(** The first [n] of the sorted list: in descending order, and every entry
    left out has a key no larger than any entry kept. *)
Lemma top_n_spec (l : list A) (n : nat) :
  StronglySorted (key_desc key) (take n (sort_desc key l))
  /\ length (take n (sort_desc key l)) = (n `min` length l)%nat
  /\ take n (sort_desc key l) ++ drop n (sort_desc key l) ≡ₚ l
  /\ forall x y, x ∈ take n (sort_desc key l) -> y ∈ drop n (sort_desc key l) ->
                 key y <= key x.
Proof.
  pose proof (sort_desc_sorted l) as Hs. split; [|split; [|split]].
  - rewrite <- (take_drop n (sort_desc key l)) in Hs.
    by apply StronglySorted_app_1_l in Hs.
  - by rewrite length_take, (Permutation_length (sort_desc_perm l)).
  - rewrite take_drop. apply sort_desc_perm.
  - by apply sorted_take_dominates.
Qed.
End Sorting.

Lemma cpu_entries_origin (ps : list process) (e : proc_info) :
  e ∈ cpu_entries ps ->
  exists p i, p ∈ ps /\ info p = Returned i /\ e = fill_memory p (fill_cpu p i).
Proof.
  unfold cpu_entries. rewrite list_elem_of_omap. intros (p & Hp & He).
  destruct (info p) as [i|] eqn:Ei; [|discriminate He].
  injection He as <-. eauto.
Qed.

Lemma memory_entries_origin (ps : list process) (e : proc_info * option Z) :
  e ∈ memory_entries ps ->
  exists p i, p ∈ ps /\ info p = Returned i
              /\ e = (fill_cpu p (fill_memory p i), page_faults_of p).
Proof.
  unfold memory_entries. rewrite list_elem_of_omap. intros (p & Hp & He).
  destruct (info p) as [i|] eqn:Ei; [|discriminate He].
  injection He as <-. eauto.
Qed.

(** X14: [get_top_processes_by_cpu n] returns at most [n] entries, in
    descending order of [cpu_percent + memory_percent]; together with the
    entries it leaves out they are exactly the processes whose [info] could be
    read, and no entry left out has a larger key than an entry returned. *)
Theorem top_cpu_ranked (n : nat) (ps : list process) :
  let out := get_top_processes_by_cpu n ps in
  StronglySorted (key_desc cpu_key) out
  /\ length out = (n `min` length (cpu_entries ps))%nat
  /\ (length out <= n)%nat
  /\ exists rest,
       out ++ rest ≡ₚ cpu_entries ps
       /\ forall x y, x ∈ out -> y ∈ rest -> cpu_key y <= cpu_key x.
Proof.
  cbv zeta. unfold get_top_processes_by_cpu.
  destruct (top_n_spec cpu_key (cpu_entries ps) n) as (Hs & Hl & Hp & Hd).
  split; [exact Hs|]. split; [exact Hl|]. split; [rewrite Hl; lia|].
  exists (drop n (sort_desc cpu_key (cpu_entries ps))). split; [exact Hp|exact Hd].
Qed.

(** X15: every entry [get_top_processes_by_cpu] returns is the [info] of a
    listed process with only its missing percentages filled in: a percentage
    that [info] had is unchanged, a missing one is the live value, or [0.0]
    when the live call raises; no returned entry has a null [cpu_percent] or
    [memory_percent], and the other fields are untouched. *)
Theorem top_cpu_entries_complete (n : nat) (ps : list process) (e : proc_info) :
  e ∈ get_top_processes_by_cpu n ps ->
  exists p i,
    p ∈ ps /\ info p = Returned i
    /\ pid e = pid i /\ name e = name i
    /\ username e = username i /\ cmdline e = cmdline i
    /\ cpu_percent e
       = Some match cpu_percent i, live_cpu_percent p with
              | Some q, _ => q
              | None, Returned q => q
              | None, Failed => 0
              end
    /\ memory_percent e
       = Some match memory_percent i, live_memory_percent p with
              | Some q, _ => q
              | None, Returned q => q
              | None, Failed => 0
              end.
Proof.
  unfold get_top_processes_by_cpu. intros He.
  apply (subseteq_take n) in He. rewrite (sort_desc_perm cpu_key) in He.
  apply cpu_entries_origin in He as (p & i & Hp & Hi & ->).
  exists p, i. split; [exact Hp|]. split; [exact Hi|].
  unfold fill_memory, fill_cpu.
  destruct i as [ipid iname iuser icmd [c|] [m|]]; cbn; repeat split.
Qed.

Lemma top_cpu_entries_complete_witness :
  exists p i,
    p ∈ [busy; gone; fresh] /\ info p = Returned i
    /\ pid i = 11%Z
    /\ cpu_percent i = None
    /\ Some (70 : Q) = Some match cpu_percent i, live_cpu_percent p with
                             | Some q, _ => q
                             | None, Returned q => q
                             | None, Failed => 0
                             end.
Proof.
  destruct (top_cpu_entries_complete 2 [busy; gone; fresh]
              {| pid := 11; name := Some "fresh"; username := None; cmdline := None;
                 cpu_percent := Some 70; memory_percent := Some 0 |})
    as (p & i & Hp & Hi & Hpid & _ & _ & _ & Hc & _).
  { apply elem_of_cons. by left. }
  exists p, i. split; [exact Hp|]. split; [exact Hi|]. split; [by symmetry|].
  apply elem_of_cons in Hp as [->|Hp].
  { cbn in Hi. injection Hi as <-. discriminate Hpid. }
  apply elem_of_cons in Hp as [->|Hp]; [discriminate Hi|].
  apply list_elem_of_singleton in Hp as ->.
  cbn in Hi. injection Hi as <-. split; reflexivity.
Defined.

(** X16: [get_top_processes_by_memory n] returns at most [n] entries, in
    descending order of [memory_percent]; with the entries left out they are
    exactly the readable processes, and no entry left out has a larger
    [memory_percent] than an entry returned. *)
Theorem top_memory_ranked (n : nat) (ps : list process) :
  let key := fun e : proc_info * option Z => memory_key (fst e) in
  let out := get_top_processes_by_memory n ps in
  StronglySorted (key_desc key) out
  /\ length out = (n `min` length (memory_entries ps))%nat
  /\ (length out <= n)%nat
  /\ exists rest,
       out ++ rest ≡ₚ memory_entries ps
       /\ forall x y, x ∈ out -> y ∈ rest -> key y <= key x.
Proof.
  cbv zeta. unfold get_top_processes_by_memory.
  destruct (top_n_spec (fun e : proc_info * option Z => memory_key (fst e))
              (memory_entries ps) n) as (Hs & Hl & Hp & Hd).
  split; [exact Hs|]. split; [exact Hl|]. split; [rewrite Hl; lia|].
  eexists. split; [exact Hp|exact Hd].
Qed.

Lemma opt_or_truthy (z : Z) (b : option Z) : z <> 0%Z -> opt_or (Some z) b = Some z.
Proof. intros Hz. unfold opt_or. by destruct (Z.eqb_spec z 0). Qed.

Lemma opt_or_falsy (a b : option Z) : a = None \/ a = Some 0%Z -> opt_or a b = b.
Proof. by intros [-> | ->]. Qed.

(** X17: the ["page_faults"] value of an entry of
    [get_top_processes_by_memory] comes from the same process as the entry.
    It is null when [memory_info()] raises; otherwise it is the first
    non-zero count among [num_page_faults] and [pfaults], and when neither
    is non-zero it is whatever [page_faults] holds. *)
Theorem memory_entry_page_faults
    (n : nat) (ps : list process) (e : proc_info * option Z) :
  e ∈ get_top_processes_by_memory n ps ->
  exists p i,
    p ∈ ps /\ info p = Returned i /\ pid (fst e) = pid i
    /\ is_Some (memory_percent (fst e)) /\ is_Some (cpu_percent (fst e))
    /\ (memory_info p = Failed -> snd e = None)
    /\ forall m, memory_info p = Returned m ->
          (forall z, num_page_faults m = Some z -> z <> 0%Z -> snd e = Some z)
          /\ ((num_page_faults m = None \/ num_page_faults m = Some 0%Z) ->
              (forall z, pfaults m = Some z -> z <> 0%Z -> snd e = Some z)
              /\ ((pfaults m = None \/ pfaults m = Some 0%Z) ->
                  snd e = page_faults m)).
Proof.
  unfold get_top_processes_by_memory. intros He.
  apply (subseteq_take n) in He.
  rewrite (sort_desc_perm (fun e : proc_info * option Z => memory_key (fst e))) in He.
  apply memory_entries_origin in He as (p & i & Hp & Hi & ->).
  exists p, i. split; [exact Hp|]. split; [exact Hi|]. cbn [fst snd].
  split; [|split; [|split; [|split]]].
  - unfold fill_cpu, fill_memory. destruct (memory_percent i), (cpu_percent i); reflexivity.
  - unfold fill_cpu, fill_memory.
    destruct i as [ipid iname iuser icmd [c|] [m|]]; cbn; eauto.
  - unfold fill_cpu, fill_memory.
    destruct i as [ipid iname iuser icmd [c|] [m|]]; cbn; eauto.
  - unfold page_faults_of. by intros ->.
  - intros m Hm. unfold page_faults_of. rewrite Hm. split.
    + intros z -> Hz. by rewrite !opt_or_truthy.
    + intros Hn. rewrite (opt_or_falsy _ (pfaults m) Hn). split.
      * intros z -> Hz. by rewrite opt_or_truthy.
      * intros Hp0. by rewrite (opt_or_falsy _ (page_faults m) Hp0).
Qed.

Lemma memory_entry_page_faults_witness :
  exists p i,
    p ∈ [fresh; gone; busy] /\ info p = Returned i /\ pid i = 10%Z
    /\ (forall m, memory_info p = Returned m ->
          pfaults m = Some 0%Z -> num_page_faults m = None ->
          Some 120%Z = page_faults m).
Proof.
  destruct (memory_entry_page_faults 1 [fresh; gone; busy]
              (fill_cpu busy (fill_memory busy
                 {| pid := 10; name := Some "busy"; username := None; cmdline := None;
                    cpu_percent := Some 50; memory_percent := Some 5 |}),
               Some 120%Z))
    as (p & i & Hp & Hi & Hpid & _ & _ & _ & Hm).
  { apply elem_of_cons. by left. }
  exists p, i. split; [exact Hp|]. split; [exact Hi|]. split; [by symmetry|].
  intros m Em Hpf Hnf. destruct (Hm m Em) as [_ H2].
  destruct (H2 (or_introl Hnf)) as [_ H3]. apply (H3 (or_intror Hpf)).
Defined.

End ProcessFacts.

(** * Interface descriptors *)

Module InterfaceFacts.
Import Interfaces.

Example detail_run :
  (fun d => (d_iface d, d_ips d, d_mac d, d_is_up d))
    <$> get_interfaces_detail 2 10 17 (Returned [("eth0", eth0_addrs); ("lo", [])])
          (Returned {[ "eth0" := {| isup := true; speed := Some 1000%Z |} ]})
  = [("eth0", ["10.0.0.5"; "fe80::1"], Some "aa:bb:cc:dd:ee:ff", Some true);
     ("lo", [], None, None)].
Proof. vm_compute. reflexivity. Qed.

Example sysinfo_ip_run :
  ip_addresses 2 10 (Returned [("eth0", eth0_addrs); ("lo", [])])
  = [("eth0", "10.0.0.5"); ("eth0", "fe80::1")].
Proof. reflexivity. Qed.

Section Platform.
Variables (AF_INET AF_INET6 AF_LINK : Z).

(** The inner loop, read as two filters: the IPs are the addresses that
    are not link addresses and pass the test of line 210, in order; the MAC
    is the last link address. *)
Lemma scan_addrs_spec (l : list snicaddr) : forall (ips : list string) (mac : option string),
  foldl (scan_addr AF_INET AF_INET6 AF_LINK) (ips, mac) l
  = (ips ++ (address <$> filter (fun a => negb (is_link AF_LINK a)
                                          && is_inet AF_INET AF_INET6 a) l),
     match last (address <$> filter (fun a => is_link AF_LINK a) l) with
     | Some m => Some m
     | None => mac
     end).
Proof.
  induction l as [|a l IH]; intros ips mac.
  - cbn. by rewrite app_nil_r.
  - cbn [foldl]. unfold scan_addr at 2. rewrite !filter_cons.
    destruct (is_link AF_LINK a) eqn:El; cbn [fst snd negb andb].
    + rewrite IH. f_equal. simpl. rewrite last_cons.
      change (list_fmap snicaddr string address ?x) with (address <$> x).
      by destruct (last _).
    + destruct (is_inet AF_INET AF_INET6 a) eqn:Ei; rewrite IH; simpl;
        by rewrite <- ?app_assoc.
Qed.

Lemma detail_of_spec (stats : gmap string snicstats) (ia : string * list snicaddr) :
  detail_of AF_INET AF_INET6 AF_LINK stats ia
  = {| d_iface := fst ia;
       d_ips := address <$> filter (fun a => negb (is_link AF_LINK a)
                                             && is_inet AF_INET AF_INET6 a) (snd ia);
       d_mac := last (address <$> filter (fun a => is_link AF_LINK a) (snd ia));
       d_is_up := isup <$> stats !! fst ia;
       d_speed := stats !! fst ia ≫= speed |}.
Proof.
  unfold detail_of. rewrite scan_addrs_spec. cbn [fst snd app].
  by destruct (last _).
Qed.

(** Lines 44 and 208-210 agree on which addresses are IPs, for families
    whose name and number agree and a link family distinct from the two
    IP families. *)
Lemma listed_iff_detail_ip (a : snicaddr) :
  wf_family AF_INET AF_INET6 (family a) ->
  AF_LINK <> AF_INET -> AF_LINK <> AF_INET6 ->
  listed_as_ip AF_INET AF_INET6 a
  = negb (is_link AF_LINK a) && is_inet AF_INET AF_INET6 a.
Proof.
  intros Hwf H4 H6. unfold listed_as_ip, is_link, is_inet, _safe_family_name.
  destruct (family a) as [n k|k]; cbn [inet_name inet_value family_num wf_family] in *.
  - destruct Hwf as [W4 W6]. rewrite orb_false_r.
    destruct (String.eqb_spec n "AF_INET") as [E4|E4].
    + subst n. pose proof (proj1 W4 eq_refl) as ->. cbn.
      by destruct (Z.eqb_spec AF_INET AF_LINK).
    + destruct (String.eqb_spec n "AF_INET6") as [E6|E6].
      * subst n. pose proof (proj1 W6 eq_refl) as ->. cbn.
        by destruct (Z.eqb_spec AF_INET6 AF_LINK).
      * cbn [orb].
        destruct (Z.eqb_spec k AF_INET) as [Ek|_]; [by apply W4 in Ek|].
        destruct (Z.eqb_spec k AF_INET6) as [Ek|_]; [by apply W6 in Ek|].
        by rewrite andb_false_r.
  - cbn [orb].
    destruct (Z.eqb_spec k AF_INET) as [->|_].
    + cbn. by destruct (Z.eqb_spec AF_INET AF_LINK).
    + destruct (Z.eqb_spec k AF_INET6) as [->|_].
      * cbn. by destruct (Z.eqb_spec AF_INET6 AF_LINK).
      * by rewrite andb_false_r.
Qed.

Lemma filter_bool_ext (P Q : snicaddr -> bool) (l : list snicaddr) :
  Forall (fun a => P a = Q a) l ->
  filter (fun a => P a) l = filter (fun a => Q a) l.
Proof.
  induction 1 as [|a l Ha _ IH]; [reflexivity|].
  rewrite !filter_cons, Ha, IH. reflexivity.
Qed.

(** X18: when both reads return, [get_interfaces_detail] yields one
    entry per interface of [net_if_addrs()], in the same order and under
    the same names; an interface without statistics has null [is_up] and
    [speed]; when either read raises the result is the empty list. *)
Theorem details_follow_interfaces
    (net_if_addrs : outcome (list (string * list snicaddr)))
    (net_if_stats : outcome (gmap string snicstats)) :
  let ds := get_interfaces_detail AF_INET AF_INET6 AF_LINK net_if_addrs net_if_stats in
  (forall addrs stats,
     net_if_addrs = Returned addrs -> net_if_stats = Returned stats ->
     d_iface <$> ds = fst <$> addrs
     /\ length ds = length addrs
     /\ forall d, d ∈ ds ->
          d_is_up d = isup <$> stats !! d_iface d
          /\ d_speed d = stats !! d_iface d ≫= speed
          /\ (stats !! d_iface d = None -> d_is_up d = None /\ d_speed d = None))
  /\ (net_if_addrs = Failed \/ net_if_stats = Failed -> ds = []).
Proof.
  cbv zeta. split.
  - intros addrs stats -> ->. cbn [get_interfaces_detail]. split; [|split].
    + rewrite <- list_fmap_compose. apply list_fmap_ext. intros i ia _.
      reflexivity.
    + apply length_fmap.
    + intros d Hd. apply list_elem_of_fmap in Hd as (ia & -> & _).
      rewrite detail_of_spec. cbn [d_iface d_is_up d_speed].
      split; [reflexivity|]. split; [reflexivity|]. by intros ->.
  - intros [-> | ->]; [reflexivity|]. by destruct net_if_addrs.
Qed.

(** X19: the inner loop of [get_interfaces_detail] sorts the addresses of
    an interface by family: [ips] holds, in order, the addresses that are
    not link addresses and belong to an IP family; [mac] is the last link
    address, null when there is none.  A link address is never put under
    [ips], even if it also passes the IP test. *)
Theorem detail_addresses
    (addrs : list (string * list snicaddr)) (stats : gmap string snicstats)
    (i : nat) (iface : string) (l : list snicaddr) :
  addrs !! i = Some (iface, l) ->
  exists d,
    get_interfaces_detail AF_INET AF_INET6 AF_LINK (Returned addrs) (Returned stats) !! i
    = Some d
    /\ d_iface d = iface
    /\ d_ips d = address <$> filter (fun a => negb (is_link AF_LINK a)
                                              && is_inet AF_INET AF_INET6 a) l
    /\ d_mac d = last (address <$> filter (fun a => is_link AF_LINK a) l)
    /\ (length (d_ips d) + length (filter (fun a => is_link AF_LINK a) l)
        <= length l)%nat.
Proof.
  intros Hi. cbn [get_interfaces_detail]. rewrite list_lookup_fmap, Hi. cbn [fmap option_fmap option_map].
  eexists. split; [reflexivity|]. rewrite detail_of_spec. cbn [fst snd d_iface d_ips d_mac].
  split; [reflexivity|]. split; [reflexivity|]. split; [reflexivity|].
  rewrite length_fmap. clear Hi. induction l as [|a l IH]; [reflexivity|].
  rewrite !filter_cons. destruct (is_link AF_LINK a); simpl.
  - lia.
  - destruct (is_inet AF_INET AF_INET6 a); simpl; lia.
Qed.

(** X20: for address families whose name and number agree, and a link
    family that is neither IP family, the IPs that [get_system_info] lists
    are exactly the [ips] of [get_interfaces_detail], interface by
    interface and in the same order. *)
Theorem system_info_ips_match_details
    (addrs : list (string * list snicaddr)) (stats : gmap string snicstats) :
  AF_LINK <> AF_INET -> AF_LINK <> AF_INET6 ->
  Forall (fun ia => Forall (fun a => wf_family AF_INET AF_INET6 (family a)) (snd ia))
         addrs ->
  ip_addresses AF_INET AF_INET6 (Returned addrs)
  = flat_map (fun d => (fun ip => (d_iface d, ip)) <$> d_ips d)
      (get_interfaces_detail AF_INET AF_INET6 AF_LINK (Returned addrs) (Returned stats)).
Proof.
  intros H4 H6 Hwf. cbn [ip_addresses get_interfaces_detail]. unfold ip_addresses_of.
  induction Hwf as [|[iface l] addrs Hl _ IH]; [reflexivity|].
  cbn [flat_map fmap list_fmap]. f_equal; [|exact IH].
  rewrite detail_of_spec. cbn [fst snd d_iface d_ips].
  rewrite <- list_fmap_compose.
  rewrite (filter_bool_ext (listed_as_ip AF_INET AF_INET6)
             (fun a => negb (is_link AF_LINK a) && is_inet AF_INET AF_INET6 a) l).
  - reflexivity.
  - eapply Forall_impl; [exact Hl|]. intros a Ha. by apply listed_iff_detail_ip.
Qed.
End Platform.

Lemma detail_addresses_witness :
  exists d,
    get_interfaces_detail 2 10 17 (Returned [("eth0", eth0_addrs)]) (Returned ∅) !! 0%nat
    = Some d
    /\ d_ips d = ["10.0.0.5"; "fe80::1"]
    /\ d_mac d = Some "aa:bb:cc:dd:ee:ff".
Proof.
  destruct (detail_addresses 2 10 17 [("eth0", eth0_addrs)] ∅ 0 "eth0" eth0_addrs eq_refl)
    as (d & Hd & _ & Hips & Hmac & _).
  exists d. split; [exact Hd|]. split; [rewrite Hips|rewrite Hmac]; reflexivity.
Defined.

Lemma system_info_ips_match_details_witness :
  ip_addresses 2 10 (Returned [("eth0", eth0_addrs); ("lo", [])])
  = flat_map (fun d => (fun ip => (d_iface d, ip)) <$> d_ips d)
      (get_interfaces_detail 2 10 17 (Returned [("eth0", eth0_addrs); ("lo", [])])
         (Returned ∅)).
Proof.
  apply (system_info_ips_match_details 2 10 17 [("eth0", eth0_addrs); ("lo", [])] ∅).
  - discriminate.
  - discriminate.
  - apply Forall_cons; split; [|apply Forall_cons; split; apply Forall_nil_2].
    unfold eth0_addrs. cbn [snd].
    repeat (apply Forall_cons; split); try apply Forall_nil_2;
      cbn; (split; split; intros E; first [reflexivity|discriminate E]).
Defined.

End InterfaceFacts.
